(** * Shallow embedding of the impulse discovery / ARIS protocol core

  Sources embedded:
  - include/impulse/protocol/aris.hpp      (ARISRobot, its AgentMessage)
  - include/impulse/protocol/message.hpp   (Aris, its AgentMessage)
  - unnamed/part_000, part_001             (Transport engine)
  - unnamed/part_004, part_005             (Agent and its peer table)
  - include/impulse/network/lan.hpp        (LanInterface::receive_loop)

  Machine integers are [Z] with their wrap-around written out; wire
  structs that are copied with [memcpy] are kept as their raw byte image
  ([list byte]) with field accessors reading the ABI offsets. *)

From Stdlib Require Import Strings.Byte.
From Stdlib Require Import Floats.
From stdpp Require Import base gmap strings list.

Open Scope Z_scope.
#[local] Set Warnings "-inexact-float".

(* ------------------------------------------------------------------ *)
(** ** Machine integers and byte images *)

Module Int.

(** Two's complement wrap-around of a [w]-bit signed integer. *)
Definition wrap_signed (w : Z) (z : Z) : Z :=
  let m := 2 ^ w in
  let r := z mod m in
  if r >=? 2 ^ (w - 1) then r - m else r.

Definition wrap32 (z : Z) : Z := wrap_signed 32 z.
Definition wrap64 (z : Z) : Z := wrap_signed 64 z.

Definition int32_range (z : Z) : Prop := - 2 ^ 31 <= z < 2 ^ 31.

Definition byte_to_Z (b : byte) : Z := Z.of_N (Byte.to_N b).

Definition byte_of_Z (z : Z) : byte :=
  match Byte.of_N (Z.to_N (z mod 256)) with
  | Some b => b
  | None => x00
  end.

(** Little-endian unsigned value of a byte string. *)
Fixpoint le_unsigned (bs : list byte) : Z :=
  match bs with
  | [] => 0
  | b :: rest => byte_to_Z b + 256 * le_unsigned rest
  end.

(** Little-endian encoding of [z] on [n] bytes. *)
Fixpoint le_bytes (n : nat) (z : Z) : list byte :=
  match n with
  | O => []
  | S n' => byte_of_Z z :: le_bytes n' (z / 256)
  end.

Definition slice (off len : nat) (bs : list byte) : list byte :=
  take len (drop off bs).

(** [std::string(const char * )]: the bytes up to the first NUL. *)
Fixpoint cstring (bs : list byte) : list byte :=
  match bs with
  | [] => []
  | b :: rest => if Byte.eqb b x00 then [] else b :: cstring rest
  end.

Definition to_std_string (bs : list byte) : string :=
  String.string_of_list_byte (cstring bs).

(** Overwrite [buf] from offset [off] with [bs] (test-input builder). *)
Definition write_at (off : nat) (bs buf : list byte) : list byte :=
  take off buf ++ bs ++ drop (off + length bs) buf.

End Int.

(* ------------------------------------------------------------------ *)
(** ** Capability-gated sharing policy

  [ARISRobot::should_share_info_with] (aris.hpp), identical in
  [Aris::should_share_info_with] (message.hpp) and
  [Agent::should_share_info_with] (part_005).  The local capability is
  the object's [capability_index_]; it is an explicit argument here. *)

Module Policy.

Definition should_share_info_with (capability_index other_capability : Z) : bool :=
  if (capability_index >=? 90) || (other_capability >=? 90) then true
  else if (capability_index >=? 60) && (other_capability >=? 60) then true
  else if (capability_index >=? 50) && (other_capability >=? 50) then true
  else (capability_index >=? 25) && (other_capability >=? 25).

End Policy.

(* ------------------------------------------------------------------ *)
(** ** ARISRobot (aris.hpp) *)

Module ARISRobot.

(** [enum class Protocol : int32_t]: any [int32_t] value, since
    [static_cast<Protocol>] may produce values outside the enumerators. *)
Definition Protocol := Z.
Definition NONE : Protocol := -1.
Definition DDS_RTPS : Protocol := 0.
Definition ZENOH : Protocol := 1.
Definition MQTT : Protocol := 2.

(** [static_cast<Protocol>(msg.protocol)] from a [uint32_t] field. *)
Definition protocol_of_wire (p : Z) : Protocol := Int.wrap32 p.

Definition select_protocol (capability_index_ : Z) : Protocol :=
  if capability_index_ >=? 90 then DDS_RTPS
  else if capability_index_ >=? 60 then ZENOH
  else MQTT.

(** [struct AgentMessage] of aris.hpp, x86-64 layout:
    timestamp@0 (8), public_key@8 (64), uuid@72 (37), orchestrator@109,
    zero_ref@112 (24), participant_uuids@136 (370), capability_index@508,
    medium@512, protocol@516, ipv6_addresses@520 (138), robot_id@660,
    robot_name@664 (32); [sizeof] = 696.  [memcpy] copies the image, so a
    message is its byte image. *)
Definition AgentMessage := list byte.
Definition sizeof_AgentMessage : nat := 696.

Definition off_uuid : nat := 72.
Definition off_capability_index : nat := 508.
Definition off_protocol : nat := 516.

(** [AgentMessage::deserialize]: [memcpy(&msg, buffer, sizeof)]. *)
Definition deserialize (buffer : list byte) : AgentMessage :=
  take sizeof_AgentMessage buffer.

(** [std::string(msg.uuid)]: reads from the [uuid] field up to a NUL. *)
Definition uuid_of (msg : AgentMessage) : string :=
  Int.to_std_string (drop off_uuid msg).

Definition capability_index (msg : AgentMessage) : Z :=
  Int.wrap32 (Int.le_unsigned (Int.slice off_capability_index 4 msg)).

Definition protocol (msg : AgentMessage) : Z :=
  Int.le_unsigned (Int.slice off_protocol 4 msg).

(** The members of [ARISRobot] that the discovery logic touches. *)
Record robot := mk_robot {
  uuid_ : string;
  chosen_protocol_ : Protocol;
  capability_index_ : Z;
  known_robots_ : gmap string AgentMessage;
  tokens_ : Z;
  last_token_update_ : Z   (* steady clock, milliseconds *)
}.

Definition set_chosen_protocol (p : Protocol) (r : robot) : robot :=
  mk_robot (uuid_ r) p (capability_index_ r) (known_robots_ r) (tokens_ r) (last_token_update_ r).
Definition set_known_robots (m : gmap string AgentMessage) (r : robot) : robot :=
  mk_robot (uuid_ r) (chosen_protocol_ r) (capability_index_ r) m (tokens_ r) (last_token_update_ r).
Definition set_tokens (t : Z) (r : robot) : robot :=
  mk_robot (uuid_ r) (chosen_protocol_ r) (capability_index_ r) (known_robots_ r) t (last_token_update_ r).
Definition set_tokens_at (t now : Z) (r : robot) : robot :=
  mk_robot (uuid_ r) (chosen_protocol_ r) (capability_index_ r) (known_robots_ r) t now.

(** Constructor: [chosen_protocol_(NONE)], [tokens_(1000)],
    [uuid_ = generate_uuid()] (random, given here), [last_token_update_ = now]. *)
Definition create (uuid : string) (capability : Z) (now : Z) : robot :=
  mk_robot uuid NONE capability ∅ 1000 now.

Definition should_share_info_with (r : robot) (other_capability : Z) : bool :=
  Policy.should_share_info_with (capability_index_ r) other_capability.

(** [ARISRobot::receive_message].  [dg] is the datagram pending on the
    socket ([None]: [recvfrom] fails with [EAGAIN]); it is read into a
    1024-byte buffer, so [received] is its length capped at 1024. *)
Definition receive_message (dg : option (list byte)) (r : robot) : bool * robot :=
  match dg with
  | None => (false, r)
  | Some pkt =>
      let buffer := take 1024 pkt in
      let received := length buffer in
      if Nat.eqb received sizeof_AgentMessage then
        let msg := deserialize buffer in
        if String.eqb (uuid_of msg) (uuid_ r) then (false, r)
        else
          let r1 := if chosen_protocol_ r =? NONE
                    then set_chosen_protocol (protocol_of_wire (protocol msg)) r
                    else r in
          let r2 := if should_share_info_with r1 (capability_index msg)
                    then set_known_robots (<[uuid_of msg := msg]> (known_robots_ r1)) r1
                    else r1 in
          (true, r2)
      else (false, r)
  end.

(** [ARISRobot::update_tokens]; [now] is the steady clock in ms.
    [bandwidth_mbps * elapsed.count()] is a [long long], the quotient is
    stored in an [int], and [tokens_.load() + new_tokens] is an [int] sum. *)
Definition update_tokens (now : Z) (r : robot) : robot :=
  let elapsed := now - last_token_update_ r in
  if elapsed >? 100 then
    let bandwidth_mbps := 10 in
    let new_tokens := Int.wrap32 (Z.quot (Int.wrap64 (bandwidth_mbps * elapsed)) 10) in
    set_tokens_at (Z.min (Int.wrap32 (tokens_ r + new_tokens)) 1000) now r
  else r.

(** [ARISRobot::consume_tokens]: [tokens_ -= count] on an [atomic<int>]. *)
Definition consume_tokens (count : Z) (r : robot) : bool * robot :=
  let current := tokens_ r in
  if current >=? count then (true, set_tokens (Int.wrap32 (current - count)) r)
  else (false, r).

(** First loop of [ARISRobot::discovery_loop]: one element of [polls] per
    100 ms iteration inside the listen window, carrying the pending
    datagram and the steady-clock time used by [update_tokens]. *)
Fixpoint listen (polls : list (option (list byte) * Z)) (r : robot) : bool * robot :=
  match polls with
  | [] => (false, r)
  | (dg, now) :: rest =>
      let '(got, r') := receive_message dg r in
      if got then (true, r') else listen rest (update_tokens now r')
  end.

(** [if (!heard_network) chosen_protocol_ = select_protocol();] *)
Definition elect (heard_network : bool) (r : robot) : robot :=
  if heard_network then r
  else set_chosen_protocol (select_protocol (capability_index_ r)) r.

Definition listen_then_elect (polls : list (option (list byte) * Z)) (r : robot) : bool * robot :=
  let '(heard, r') := listen polls r in (heard, elect heard r').

(** Test-input builder: a 696-byte image with the given uuid,
    capability and protocol fields, every other byte zero. *)
Definition mk_packet (uuid : string) (cap prot : Z) : list byte :=
  Int.write_at off_protocol (Int.le_bytes 4 prot)
    (Int.write_at off_capability_index (Int.le_bytes 4 cap)
      (Int.write_at off_uuid (String.list_byte_of_string uuid)
        (replicate sizeof_AgentMessage x00))).

(** Token-bucket events of the discovery loop. *)
Inductive bucket_event :=
| Refill (now : Z)
| Consume (count : Z).

Definition bucket_step (e : bucket_event) (r : robot) : robot :=
  match e with
  | Refill now => update_tokens now r
  | Consume n => snd (consume_tokens n r)
  end.

Fixpoint bucket_run (es : list bucket_event) (r : robot) : robot :=
  match es with
  | [] => r
  | e :: es' => bucket_run es' (bucket_step e r)
  end.

End ARISRobot.

(* ------------------------------------------------------------------ *)
(** ** Aris (message.hpp) over a LanInterface (lan.hpp) *)

Module Aris.

(** [struct AgentMessage] of message.hpp (no [medium]/[protocol]):
    timestamp@0, public_key@8 (64), uuid@72 (37), orchestrator@109,
    zero_ref@112 (24), participant_uuids@136 (370), capability_index@508,
    ipv6_addresses@512 (138), robot_id@652, robot_name@656 (32);
    [sizeof] = 688. *)
Definition AgentMessage := list byte.
Definition sizeof_AgentMessage : nat := 688.

Definition off_timestamp : nat := 0.
Definition off_uuid : nat := 72.
Definition off_capability_index : nat := 508.

Definition deserialize (buffer : list byte) : AgentMessage :=
  take sizeof_AgentMessage buffer.

Definition uuid_of (msg : AgentMessage) : string :=
  Int.to_std_string (drop off_uuid msg).

Definition capability_index (msg : AgentMessage) : Z :=
  Int.wrap32 (Int.le_unsigned (Int.slice off_capability_index 4 msg)).

Record aris := mk_aris {
  uuid_ : string;
  capability_index_ : Z;
  known_robots_ : gmap string AgentMessage
}.

Definition set_known_robots (m : gmap string AgentMessage) (a : aris) : aris :=
  mk_aris (uuid_ a) (capability_index_ a) m.

Definition should_share_info_with (a : aris) (other_capability : Z) : bool :=
  Policy.should_share_info_with (capability_index_ a) other_capability.

(** [Aris::handle_incoming_message(message, from_addr)]. *)
Definition handle_incoming_message (message : list byte) (from_addr : string) (a : aris) : aris :=
  if Nat.eqb (length message) sizeof_AgentMessage then
    let msg := deserialize message in
    if should_share_info_with a (capability_index msg)
    then set_known_robots (<[uuid_of msg := msg]> (known_robots_ a)) a
    else a
  else a.

(** One datagram of [LanInterface::receive_loop] delivered to the
    callback that [Aris::start] registers: datagrams are read into a
    1024-byte buffer, empty reads are skipped, and datagrams whose source
    address is the interface's own [address_] are dropped. *)
Definition lan_receive (address_ : string) (pkt : list byte) (from_addr : string) (a : aris) : aris :=
  let received := take 1024 pkt in
  if Nat.eqb (length received) 0 then a
  else if String.eqb from_addr address_ then a
  else handle_incoming_message received from_addr a.

(** Test-input builder: a 688-byte image with the given timestamp, uuid
    and capability fields, every other byte zero. *)
Definition mk_packet (ts : Z) (uuid : string) (cap : Z) : list byte :=
  Int.write_at off_capability_index (Int.le_bytes 4 cap)
    (Int.write_at off_uuid (String.list_byte_of_string uuid)
      (Int.write_at off_timestamp (Int.le_bytes 8 ts)
        (replicate sizeof_AgentMessage x00))).

End Aris.

(* ------------------------------------------------------------------ *)
(** ** Generic Transport engine, receive path
  ([impulse::Transport::handle_incoming_message], part_000; the same
  body in part_001).  The owner's state [St] (e.g. an Agent's peer table)
  is only reachable through the registered handler; the list returned
  records the handler invocations. *)

Module Transport.
Section Engine.
Context {MessageT St : Type}.
(** [msg.get_size()] of the bound message type. *)
Variable get_size : nat.
(** [msg.deserialize(message.c_str())]. *)
Variable deserialize : list byte -> MessageT.

Definition handler := MessageT -> string -> Z -> St -> St.

Definition handle_incoming_message (message_handler_ : option handler)
    (message : list byte) (from_addr : string) (from_port : Z) (s : St)
    : St * list (MessageT * string * Z) :=
  if Nat.eqb (length message) get_size then
    let msg := deserialize message in
    match message_handler_ with
    | Some h => (h msg from_addr from_port s, [(msg, from_addr, from_port)])
    | None => (s, [])
    end
  else (s, []).
End Engine.
End Transport.

(* ------------------------------------------------------------------ *)
(** ** Discovery messages, the continuous broadcast and the Agent *)

Module Agent.

(** [concord::Datum]: geographic origin, opaque to the protocol. *)
Record Datum := mk_datum { lat : float; lon : float; alt : float }.

(** [struct Discovery] (the variant carrying [ipv6], part_003). *)
Record Discovery := mk_discovery {
  timestamp : Z;          (* uint64_t *)
  join_time : Z;          (* uint64_t *)
  ipv6 : string;          (* std::string(msg.ipv6) *)
  zero_ref : Datum;
  orchestrator : bool;
  capability_index : Z    (* int32_t *)
}.

(** [Discovery::set_timestamp]. *)
Definition set_timestamp (t : Z) (m : Discovery) : Discovery :=
  mk_discovery t (join_time m) (ipv6 m) (zero_ref m) (orchestrator m) (capability_index m).

(** [strncpy(msg.ipv6, addr.c_str(), 45)] into a zeroed [char[46]]. *)
Definition ipv6_field (addr : string) : string := String.substring 0 45 addr.

Definition default_zero_ref : Datum := mk_datum 40.7128%float (-74.0060)%float 0.0%float.

(** Continuous-broadcast state of the Transport engine (part_001:
    [continuous_], [broadcast_interval_], [broadcast_message_],
    [has_broadcast_message_], and the loop-local [last_broadcast]). *)
Record Broadcast := mk_broadcast {
  continuous_ : bool;
  broadcast_interval_ms : Z;
  broadcast_message_ : Discovery;
  has_broadcast_message_ : bool;
  last_broadcast : Z      (* steady clock, nanoseconds *)
}.

(** [Transport::set_broadcast_message]. *)
Definition set_broadcast_message (m : Discovery) (b : Broadcast) : Broadcast :=
  mk_broadcast (continuous_ b) (broadcast_interval_ms b) m true (last_broadcast b).

(** One iteration of [Transport::message_loop].  [steady_now] is
    [std::chrono::steady_clock::now().time_since_epoch().count()]: the
    monotonic clock in nanoseconds (libstdc++).  Returns the messages sent. *)
Definition message_loop_tick (steady_now : Z) (b : Broadcast) : Broadcast * list Discovery :=
  if continuous_ b && has_broadcast_message_ b then
    let m := set_timestamp steady_now (broadcast_message_ b) in
    if steady_now - last_broadcast b >=? broadcast_interval_ms b * 1000000 then
      (mk_broadcast (continuous_ b) (broadcast_interval_ms b) m true steady_now, [m])
    else
      (mk_broadcast (continuous_ b) (broadcast_interval_ms b) m true (last_broadcast b), [])
  else (b, []).

(** Agent state: [transport_.get_address()], [transport_.get_capability()],
    [known_agents_] and the engine's broadcast state. *)
Record agent := mk_agent {
  address : string;
  capability : Z;
  known_agents_ : gmap string Discovery;
  transport_ : Broadcast
}.

Definition set_known_agents (m : gmap string Discovery) (g : agent) : agent :=
  mk_agent (address g) (capability g) m (transport_ g).
Definition set_transport (b : Broadcast) (g : agent) : agent :=
  mk_agent (address g) (capability g) (known_agents_ g) b.

(** [Agent::handle_discovery_message] of the Agent that gates on the
    sharing policy (part_005, first revision). *)
Definition handle_discovery_message_gated (msg : Discovery) (from_addr : string)
    (g : agent) : agent :=
  if Policy.should_share_info_with (capability g) (capability_index msg)
  then set_known_agents (<[ipv6 msg := msg]> (known_agents_ g)) g
  else g.

(** [Agent::Agent] of the continuous-broadcast Agent (part_005, second
    revision): [now_time] is the system clock in ms, [steady_start] the
    steady clock (ns) at which the message loop starts. *)
Definition create (addr : string) (cap : Z) (now_time steady_start : Z) : agent :=
  let self_msg := mk_discovery now_time now_time (ipv6_field addr) default_zero_ref false cap in
  let b := mk_broadcast true 1000 self_msg false steady_start in
  mk_agent addr cap (<[addr := self_msg]> ∅) (set_broadcast_message self_msg b).

(** [Agent::send_discovery] (part_005, second revision). *)
Definition send_discovery (now_time : Z) (g : agent) : agent :=
  let jt := match known_agents_ g !! address g with
            | Some self_agent => join_time self_agent
            | None => now_time
            end in
  let msg := mk_discovery now_time jt (ipv6_field (address g)) default_zero_ref false (capability g) in
  set_transport (set_broadcast_message msg (transport_ g)) g.

(** [Agent::handle_discovery_message] (part_005, second revision). *)
Definition handle_discovery_message (msg : Discovery) (from_addr : string) (g : agent) : agent :=
  set_known_agents (<[ipv6 msg := msg]> (known_agents_ g)) g.

(** Local events of an Agent: a call of [send_discovery] at a system time,
    or a tick of the engine's message loop at a steady time. *)
Inductive local_event :=
| Refresh (now_time : Z)
| Tick (steady_now : Z).

Definition local_step (e : local_event) (g : agent) : agent :=
  match e with
  | Refresh t => send_discovery t g
  | Tick t => set_transport (fst (message_loop_tick t (transport_ g))) g
  end.

Fixpoint local_run (es : list local_event) (g : agent) : agent :=
  match es with
  | [] => g
  | e :: es' => local_run es' (local_step e g)
  end.

End Agent.

(* ------------------------------------------------------------------ *)
(** ** ARISRobot send path: [generate_uuid] and [send_agent_message]
  (aris.hpp).  The random nibbles, the clocks and the interface address
  are inputs. *)

Module ARISSend.

(** One lowercase hexadecimal digit, as printed by [%x]. *)
Definition hex_digit (d : Z) : byte :=
  Int.byte_of_Z (if d <? 10 then 48 + d else 87 + d).

(** The [n] low hexadecimal digits of [x], most significant first. *)
Fixpoint hex_fixed (n : nat) (x : Z) : list byte :=
  match n with
  | O => []
  | S n' => hex_fixed n' (x / 16) ++ [hex_digit (x mod 16)]
  end.

(** Number of hexadecimal digits of a non-negative [x] ([0] has one). *)
Fixpoint hex_width (fuel : nat) (x : Z) : nat :=
  match fuel with
  | O => 1%nat
  | S f => if x <? 16 then 1%nat else S (hex_width f (x / 16))
  end.

(** [printf("%0<w>x", x)] of an unsigned value: its digits, left-padded
    with ['0'] to [w]. *)
Definition printf_hex (w : nat) (x : Z) : list byte :=
  hex_fixed (Nat.max w (hex_width 64 x)) x.

Definition dash : byte := Int.byte_of_Z 45.

(** [ARISRobot::generate_uuid]: [robot_id_] is a [uint32_t]; [d1..d4] are
    the four draws of [dis(gen)] in [0, 15]; [micros] is the system clock
    in microseconds.  [snprintf] into [char[37]] keeps at most 36
    characters and NUL-terminates; [std::string(uuid_str)] reads up to the
    NUL. *)
Definition generate_uuid (robot_id_ d1 d2 d3 d4 micros : Z) : string :=
  let uuid_str :=
    printf_hex 8 robot_id_ ++ [dash] ++ printf_hex 4 4096 ++ [dash] ++
    printf_hex 4 16384 ++ [dash] ++
    printf_hex 4 (d1 * 4096 + d2 * 256 + d3 * 16 + d4) ++ [dash] ++
    printf_hex 12 (Z.land micros 0xFFFFFFFFFFFF) in
  Int.to_std_string (take 36 uuid_str ++ [x00]).

(** [strncpy(dst, src.c_str(), n)]: the characters of [src] up to its
    first NUL, at most [n] of them, then NUL padding up to [n] bytes. *)
Fixpoint strncpy (src : list byte) (n : nat) : list byte :=
  match n with
  | O => []
  | S n' =>
      match src with
      | [] => x00 :: strncpy [] n'
      | b :: rest => if Byte.eqb b x00 then x00 :: strncpy [] n' else b :: strncpy rest n'
      end
  end.

(** Write each [(offset, bytes)] field into the image, in order. *)
Fixpoint write_fields (fields : list (nat * list byte)) (buf : list byte) : list byte :=
  match fields with
  | [] => buf
  | (off, bs) :: rest => write_fields rest (Int.write_at off bs buf)
  end.

(** The IEEE 754 binary64 bit pattern of a [double]. *)
Definition double_bits (f : float) : Z :=
  match Prim2SF f with
  | S754_zero s => if s then 2 ^ 63 else 0
  | S754_infinity s => (if s then 2 ^ 63 else 0) + 2047 * 2 ^ 52
  | S754_nan => 2047 * 2 ^ 52 + 2 ^ 51
  | S754_finite s m e =>
      (if s then 2 ^ 63 else 0) +
      (if Z.pos m <? 2 ^ 52 then Z.pos m
       else (e + 1075) * 2 ^ 52 + (Z.pos m - 2 ^ 52))
  end.

(** The members of [ARISRobot] that [send_agent_message] reads besides
    those of [ARISRobot.robot]: [name_], [robot_id_] and the address
    [lan_interface_->get_ipv6()]. *)
Record identity := mk_identity {
  name_ : string;
  robot_id_ : Z;      (* uint32_t *)
  ipv6 : string
}.

(** The member assignments of [send_agent_message] on [AgentMessage msg = {}],
    in source order, at the offsets of [ARISRobot.AgentMessage]. *)
Definition announcement_fields (id : identity) (timestamp : Z) (r : ARISRobot.robot)
    : list (nat * list byte) :=
  [(0%nat, Int.le_bytes 8 timestamp);
   (8%nat, strncpy (String.list_byte_of_string "ed25519_public_key_placeholder") 63);
   (72%nat, strncpy (String.list_byte_of_string (ARISRobot.uuid_ r)) 36);
   (109%nat, [x00]);                                   (* orchestrator = false *)
   (112%nat, Int.le_bytes 8 (double_bits 40.7128%float));
   (120%nat, Int.le_bytes 8 (double_bits (-74.0060)%float));
   (128%nat, Int.le_bytes 8 (double_bits 0.0%float));
   (508%nat, Int.le_bytes 4 (ARISRobot.capability_index_ r));
   (512%nat, Int.le_bytes 4 1);                        (* Medium::WIFI_5GHZ *)
   (516%nat, Int.le_bytes 4 (ARISRobot.chosen_protocol_ r));
   (520%nat, strncpy (String.list_byte_of_string (ipv6 id)) 45);
   (566%nat, strncpy [] 45);
   (612%nat, strncpy [] 45);
   (660%nat, Int.le_bytes 4 (robot_id_ id));
   (664%nat, strncpy (String.list_byte_of_string (name_ id)) 31)].

(** [ARISRobot::send_agent_message]: the datagram sent, [sizeof(AgentMessage)]
    bytes of the serialized image; [timestamp] is the system clock in ms. *)
Definition send_agent_message (id : identity) (timestamp : Z) (r : ARISRobot.robot) : list byte :=
  write_fields (announcement_fields id timestamp r)
    (replicate ARISRobot.sizeof_AgentMessage x00).

End ARISSend.

(* ------------------------------------------------------------------ *)
(** ** Aris send path: [Aris::send_agent_message] (message.hpp) *)

Module ArisSend.
Import ARISSend.

(** The member assignments of [Aris::send_agent_message] on
    [AgentMessage msg = {}], in source order, at the offsets of
    [Aris.AgentMessage]; [robot_id_ id] is the member [id_] and [ipv6 id]
    the address [lan_interface_->get_ipv6()] returns. *)
Definition announcement_fields (id : identity) (timestamp : Z) (a : Aris.aris)
    : list (nat * list byte) :=
  [(0%nat, Int.le_bytes 8 timestamp);
   (8%nat, strncpy (String.list_byte_of_string "ed25519_key_placeholder") 63);
   (72%nat, strncpy (String.list_byte_of_string (Aris.uuid_ a)) 36);
   (109%nat, [x00]);                                   (* orchestrator = false *)
   (112%nat, Int.le_bytes 8 (double_bits 40.7128%float));
   (120%nat, Int.le_bytes 8 (double_bits (-74.0060)%float));
   (128%nat, Int.le_bytes 8 (double_bits 0.0%float));
   (508%nat, Int.le_bytes 4 (Aris.capability_index_ a));
   (512%nat, strncpy (String.list_byte_of_string (ipv6 id)) 45);
   (558%nat, strncpy [] 45);
   (604%nat, strncpy [] 45);
   (652%nat, Int.le_bytes 4 (robot_id_ id));
   (656%nat, strncpy (String.list_byte_of_string (name_ id)) 31)].

(** [Aris::send_agent_message]: the [std::string] handed to
    [multicast_message], [sizeof(AgentMessage)] bytes. *)
Definition send_agent_message (id : identity) (timestamp : Z) (a : Aris.aris) : list byte :=
  write_fields (announcement_fields id timestamp a) (replicate Aris.sizeof_AgentMessage x00).

End ArisSend.

(* ------------------------------------------------------------------ *)
(** ** A run of the Transport message loop (part_001) *)

Module Broadcaster.
Import Agent.

(** Iterations of [Transport::message_loop] at the given steady-clock
    times; returns the final state and the messages sent, in order. *)
Fixpoint broadcast_run (ticks : list Z) (b : Broadcast) : Broadcast * list Discovery :=
  match ticks with
  | [] => (b, [])
  | t :: rest =>
      let '(b1, sent1) := message_loop_tick t b in
      let '(b2, sent2) := broadcast_run rest b1 in
      (b2, sent1 ++ sent2)
  end.

(** Each time in [ts] is at least [gap] after the previous one, the first
    at least [gap] after [last]. *)
Fixpoint spaced (gap last : Z) (ts : list Z) : bool :=
  match ts with
  | [] => true
  | t :: rest => (t - last >=? gap) && spaced gap t rest
  end.

End Broadcaster.

(* ------------------------------------------------------------------ *)
(** * Properties *)

(** Case split on every boolean comparison of a goal or hypothesis. *)
Ltac split_cmp :=
repeat match goal with
| |- context [?a >=? ?b] => destruct (Z.geb_spec a b)
| |- context [?a =? ?b] => destruct (Z.eqb_spec a b)
| |- context [?a >? ?b] => destruct (Z.gtb_spec a b)
end.

Module PolicyFacts.
Import Policy.

(** C1: the sharing policy holds exactly when the larger capability is at
    least 90 or the smaller one at least 25; boundary scenario 25/25
    accepted, 24/25 rejected. *)
Theorem should_share_info_with_max_min :
  (forall local remote,
      should_share_info_with local remote = true <->
      (Z.max local remote >= 90 \/ Z.min local remote >= 25)) /\
  should_share_info_with 25 25 = true /\
  should_share_info_with 24 25 = false.
Proof.
  split; [|split; reflexivity].
  intros l r. unfold should_share_info_with.
  split_cmp; simpl; split; intros Hs; try lia; try congruence; try reflexivity.
Qed.
End PolicyFacts.

Module ARISRobotFacts.
Import ARISRobot.

Lemma take_all_length (pkt : list byte) :
  length pkt = sizeof_AgentMessage -> take 1024 pkt = pkt.
Proof. intros H. apply take_ge. unfold sizeof_AgentMessage in H. lia. Qed.

Lemma deserialize_sized (pkt : list byte) :
  length pkt = sizeof_AgentMessage -> deserialize pkt = pkt.
Proof. intros H. unfold deserialize. apply take_ge. lia. Qed.

Lemma received_length (pkt : list byte) :
  (length (take 1024 pkt) =? sizeof_AgentMessage)%nat = (length pkt =? sizeof_AgentMessage)%nat.
Proof.
  rewrite length_take. unfold sizeof_AgentMessage.
  destruct (Nat.eqb_spec (length pkt) 696); destruct (Nat.eqb_spec (Nat.min 1024 (length pkt)) 696);
    auto; lia.
Qed.

(** [receive_message] reports [true] exactly for a 696-byte datagram
    whose uuid differs from the robot's own; otherwise it changes nothing. *)
Lemma receive_message_result (dg : option (list byte)) (r : robot) :
  (fst (receive_message dg r) = true <->
     exists pkt, dg = Some pkt /\ length pkt = sizeof_AgentMessage /\ uuid_of pkt <> uuid_ r) /\
  (fst (receive_message dg r) = false -> snd (receive_message dg r) = r).
Proof.
  destruct dg as [pkt|]; simpl.
  - rewrite received_length.
    destruct (Nat.eqb_spec (length pkt) sizeof_AgentMessage) as [Hl|Hl].
    + rewrite take_all_length, deserialize_sized by exact Hl.
      destruct (String.eqb_spec (uuid_of pkt) (uuid_ r)) as [He|He]; simpl.
      * split; [split; [discriminate|] | auto].
        intros (p & Hp & _ & Hu). injection Hp as ->. contradiction.
      * split; [split; [intros _; eauto|reflexivity] | discriminate].
    + split; [split; [discriminate|] | auto].
      intros (p & Hp & Hp2 & _). injection Hp as ->. contradiction.
  - split; [split; [discriminate|] | auto].
    intros (p & Hp & _). discriminate.
Qed.

Lemma update_tokens_keeps (now : Z) (r : robot) :
  chosen_protocol_ (update_tokens now r) = chosen_protocol_ r /\
  capability_index_ (update_tokens now r) = capability_index_ r /\
  known_robots_ (update_tokens now r) = known_robots_ r.
Proof. unfold update_tokens. destruct (_ >? _); simpl; auto. Qed.

Lemma listen_silent (polls : list (option (list byte) * Z)) (r : robot) :
  Forall (fun p => fst p = None) polls ->
  fst (listen polls r) = false /\
  chosen_protocol_ (snd (listen polls r)) = chosen_protocol_ r /\
  capability_index_ (snd (listen polls r)) = capability_index_ r.
Proof.
  intros H. revert r. induction H as [|[dg now] rest Hdg _ IH]; intros r; simpl in *.
  - auto.
  - subst dg. simpl. destruct (IH (update_tokens now r)) as (H1 & H2 & H3).
    destruct (update_tokens_keeps now r) as (K1 & K2 & _).
    rewrite H2, H3, K1, K2. auto.
Qed.

(** C7: protocol election by capability thresholds; an isolated robot
    (no datagram during its listen window) with capability 95 elects
    DDS_RTPS and one with capability 55 elects MQTT. *)
Theorem select_protocol_thresholds :
  (forall c, 90 <= c -> select_protocol c = DDS_RTPS) /\
  (forall c, 60 <= c < 90 -> select_protocol c = ZENOH) /\
  (forall c, c < 60 -> select_protocol c = MQTT) /\
  (forall polls uuid now, Forall (fun p => fst p = None) polls ->
     chosen_protocol_ (snd (listen_then_elect polls (create uuid 95 now))) = DDS_RTPS /\
     chosen_protocol_ (snd (listen_then_elect polls (create uuid 55 now))) = MQTT).
Proof.
  unfold select_protocol.
  split; [intros c Hc; split_cmp; lia|].
  split; [intros c Hc; split_cmp; first [reflexivity | lia]|].
  split; [intros c Hc; split_cmp; first [reflexivity | lia]|].
  intros polls uuid now Hs. unfold listen_then_elect.
  destruct (listen_silent polls (create uuid 95 now) Hs) as (A1 & _ & A3).
  destruct (listen_silent polls (create uuid 55 now) Hs) as (B1 & _ & B3).
  destruct (listen polls (create uuid 95 now)) as [h1 r1] eqn:E1.
  destruct (listen polls (create uuid 55 now)) as [h2 r2] eqn:E2.
  simpl in *. subst h1 h2. simpl. rewrite A3, B3. split; reflexivity.
Qed.

Lemma select_protocol_thresholds_witness :
  select_protocol 95 = DDS_RTPS /\ select_protocol 75 = ZENOH /\ select_protocol 55 = MQTT /\
  chosen_protocol_ (snd (listen_then_elect [(None, 100); (None, 200)] (create "r1" 95 0))) = DDS_RTPS.
Proof.
  destruct select_protocol_thresholds as (H1 & H2 & H3 & H4).
  split; [apply H1; lia|]. split; [apply H2; lia|]. split; [apply H3; lia|].
  apply (H4 [(None, 100); (None, 200)] "r1" 0). repeat constructor.
Defined.

Lemma receive_message_sized_foreign (r : robot) (pkt : list byte) :
  length pkt = sizeof_AgentMessage -> uuid_of pkt <> uuid_ r ->
  receive_message (Some pkt) r =
    (let r1 := if chosen_protocol_ r =? NONE
               then set_chosen_protocol (protocol_of_wire (protocol pkt)) r else r in
     (true, if should_share_info_with r1 (capability_index pkt)
            then set_known_robots (<[uuid_of pkt := pkt]> (known_robots_ r1)) r1 else r1)).
Proof.
  intros Hl Hu. simpl. rewrite received_length.
  rewrite (proj2 (Nat.eqb_eq _ _) Hl).
  rewrite take_all_length, deserialize_sized by exact Hl.
  destruct (String.eqb_spec (uuid_of pkt) (uuid_ r)) as [He|He]; [contradiction|].
  reflexivity.
Qed.

(** C10: a robot whose protocol is still NONE adopts the protocol field
    of any correctly-sized datagram with a foreign uuid, also when the
    sharing policy rejects the sender and the peer table is left as it was. *)
Theorem receive_message_adopts_protocol (r : robot) (pkt : list byte) :
  chosen_protocol_ r = NONE ->
  length pkt = sizeof_AgentMessage ->
  uuid_of pkt <> uuid_ r ->
  fst (receive_message (Some pkt) r) = true /\
  chosen_protocol_ (snd (receive_message (Some pkt) r)) = protocol_of_wire (protocol pkt) /\
  (should_share_info_with r (capability_index pkt) = false ->
     known_robots_ (snd (receive_message (Some pkt) r)) = known_robots_ r).
Proof.
  intros Hn Hl Hu. rewrite (receive_message_sized_foreign r pkt Hl Hu).
  rewrite Hn. simpl.
  unfold should_share_info_with. simpl.
  destruct (Policy.should_share_info_with _ _) eqn:Es; simpl.
  - split; [reflexivity|split; [reflexivity|discriminate]].
  - split; [reflexivity|split; [reflexivity|reflexivity]].
Qed.

Lemma receive_message_adopts_protocol_witness :
  let r0 := create "robot-A" 10 0 in
  let pkt := mk_packet "robot-B" 10 MQTT in
  should_share_info_with r0 (capability_index pkt) = false /\
  fst (receive_message (Some pkt) r0) = true /\
  chosen_protocol_ (snd (receive_message (Some pkt) r0)) = protocol_of_wire (protocol pkt) /\
  (should_share_info_with r0 (capability_index pkt) = false ->
     known_robots_ (snd (receive_message (Some pkt) r0)) = known_robots_ r0).
Proof.
  intros r0 pkt. split; [vm_compute; reflexivity|].
  apply (receive_message_adopts_protocol r0 pkt).
  - reflexivity.
  - vm_compute. reflexivity.
  - intros He. vm_compute in He. discriminate.
Defined.

(** C8, as stated, fails: a sized datagram from a foreign uuid that the
    sharing policy rejects (both capabilities 10) still ends the listen
    phase at once, so the robot skips election and keeps the peer's protocol. *)
Lemma listen_ends_on_rejected_message :
  let r0 := create "robot-A" 10 0 in
  let pkt := mk_packet "robot-B" 10 ZENOH in
  should_share_info_with r0 (capability_index pkt) = false /\
  fst (listen_then_elect [(Some pkt, 100); (None, 200)] r0) = true /\
  chosen_protocol_ (snd (listen_then_elect [(Some pkt, 100); (None, 200)] r0)) = ZENOH /\
  known_robots_ (snd (listen_then_elect [(Some pkt, 100); (None, 200)] r0)) = ∅.
Proof. vm_compute. repeat split. Qed.

(** C8 (amended): while listening, a poll ends the listen phase exactly
    when it delivers a correctly-sized datagram whose uuid differs from
    the robot's own, whatever the sharing policy decides; a missing,
    mis-sized or self-originated datagram leaves the robot unchanged and
    listening. *)
Theorem listen_ends_on_sized_foreign_message (dg : option (list byte)) (now : Z)
    (rest : list (option (list byte) * Z)) (r : robot) :
  ((exists pkt, dg = Some pkt /\ length pkt = sizeof_AgentMessage /\ uuid_of pkt <> uuid_ r) ->
     listen ((dg, now) :: rest) r = (true, snd (receive_message dg r))) /\
  (~ (exists pkt, dg = Some pkt /\ length pkt = sizeof_AgentMessage /\ uuid_of pkt <> uuid_ r) ->
     listen ((dg, now) :: rest) r = listen rest (update_tokens now r)).
Proof.
  destruct (receive_message_result dg r) as [Hiff Hfalse].
  simpl. destruct (receive_message dg r) as [got r'] eqn:E. simpl in *.
  split.
  - intros Hex. apply Hiff in Hex. subst got. reflexivity.
  - intros Hnex. destruct got.
    + exfalso. apply Hnex, Hiff. reflexivity.
    + rewrite (Hfalse eq_refl). reflexivity.
Qed.

Lemma listen_ends_on_sized_foreign_message_witness :
  let r0 := create "robot-A" 10 0 in
  let pkt := mk_packet "robot-B" 10 ZENOH in
  listen [(Some pkt, 100)] r0 = (true, snd (receive_message (Some pkt) r0)).
Proof.
  intros r0 pkt.
  apply (proj1 (listen_ends_on_sized_foreign_message (Some pkt) 100 [] r0)).
  exists pkt. split; [reflexivity|]. split; [vm_compute; reflexivity|].
  intros He. vm_compute in He. discriminate.
Defined.

(** Range facts for the [int] arithmetic of the bucket. *)
Lemma wrap32_range (z : Z) : - 2 ^ 31 <= Int.wrap32 z < 2 ^ 31.
Proof.
  unfold Int.wrap32, Int.wrap_signed.
  assert (E1 : 2 ^ 32 = 4294967296) by reflexivity.
  assert (E2 : 2 ^ (32 - 1) = 2147483648) by reflexivity.
  assert (E3 : 2 ^ 31 = 2147483648) by reflexivity.
  rewrite E1, E2, E3.
  pose proof (Z.mod_pos_bound z 4294967296 ltac:(lia)).
  destruct (Z.geb_spec (z mod 4294967296) 2147483648); lia.
Qed.

Lemma wrap32_small (z : Z) : 0 <= z < 2 ^ 31 -> Int.wrap32 z = z.
Proof.
  intros Hz. unfold Int.wrap32, Int.wrap_signed.
  assert (E1 : 2 ^ 32 = 4294967296) by reflexivity.
  assert (E2 : 2 ^ (32 - 1) = 2147483648) by reflexivity.
  assert (E3 : 2 ^ 31 = 2147483648) by reflexivity.
  rewrite E1, E2. rewrite E3 in Hz.
  rewrite Z.mod_small by lia.
  destruct (Z.geb_spec z 2147483648); lia.
Qed.

Definition count_nonneg (e : bucket_event) : Prop :=
  match e with
  | Consume n => 0 <= n
  | Refill _ => True
  end.

Lemma bucket_step_bounded (e : bucket_event) (r : robot) :
  count_nonneg e -> - 2 ^ 31 <= tokens_ r <= 1000 ->
  - 2 ^ 31 <= tokens_ (bucket_step e r) <= 1000.
Proof.
  intros He Hr. destruct e as [now|n]; simpl in *.
  - unfold update_tokens. destruct (_ >? _); simpl; [|lia].
    pose proof (wrap32_range (tokens_ r +
      Int.wrap32 (Z.quot (Int.wrap64 (10 * (now - last_token_update_ r))) 10))).
    lia.
  - unfold consume_tokens. destruct (Z.geb_spec (tokens_ r) n); simpl; [|lia].
    rewrite wrap32_small; lia.
Qed.

(** C4: from the constructor, every sequence of refill ticks and token
    consumptions (with non-negative counts, as the loop's 10 and 30) keeps
    [tokens_ <= 1000]; consuming [n <= tokens_] succeeds and leaves
    [tokens_ - n]; consuming [n > tokens_] fails and changes nothing. *)
Theorem token_bucket_bounded :
  (forall es uuid cap now, Forall count_nonneg es ->
     tokens_ (bucket_run es (create uuid cap now)) <= 1000) /\
  (forall r n, Int.int32_range (tokens_ r) -> 0 <= n <= tokens_ r ->
     consume_tokens n r = (true, set_tokens (tokens_ r - n) r)) /\
  (forall r n, n > tokens_ r -> consume_tokens n r = (false, r)).
Proof.
  split; [|split].
  - intros es uuid cap now Hes.
    assert (Hinv : forall es r, Forall count_nonneg es -> - 2 ^ 31 <= tokens_ r <= 1000 ->
                     - 2 ^ 31 <= tokens_ (bucket_run es r) <= 1000).
    { clear. intros es. induction es as [|e es IH]; intros r Hf Hr; simpl; [exact Hr|].
      inversion Hf; subst. apply IH; [assumption|]. apply bucket_step_bounded; assumption. }
    apply Hinv; [exact Hes|]. simpl. lia.
  - intros r n Hr Hn. unfold consume_tokens, Int.int32_range in *.
    destruct (Z.geb_spec (tokens_ r) n); [|lia].
    rewrite wrap32_small by lia. reflexivity.
  - intros r n Hn. unfold consume_tokens.
    destruct (Z.geb_spec (tokens_ r) n); [lia|reflexivity].
Qed.

Lemma token_bucket_bounded_witness :
  tokens_ (bucket_run [Consume 30; Refill 5000; Consume 10] (create "robot-A" 75 0)) <= 1000 /\
  consume_tokens 30 (create "robot-A" 75 0) = (true, set_tokens 970 (create "robot-A" 75 0)) /\
  consume_tokens 1001 (create "robot-A" 75 0) = (false, create "robot-A" 75 0).
Proof.
  destruct token_bucket_bounded as (H1 & H2 & H3).
  split; [apply H1; repeat constructor; simpl; lia|].
  split; [apply (H2 (create "robot-A" 75 0) 30); simpl; unfold Int.int32_range; lia|].
  apply H3. simpl. lia.
Defined.

End ARISRobotFacts.

Module MergeFacts.

(** C6: a payload whose length differs from the bound message type's size
    invokes no handler and leaves the owner's state as it was, in the
    generic engine; [ARISRobot::receive_message] reports [false] and
    changes nothing; [Aris::handle_incoming_message] changes nothing. *)
Theorem missized_payload_discarded :
  (forall (MessageT St : Type) (get_size : nat) (deserialize : list byte -> MessageT)
          (h : option (@Transport.handler MessageT St)) (message : list byte)
          (from_addr : string) (from_port : Z) (s : St),
     length message <> get_size ->
     Transport.handle_incoming_message get_size deserialize h message from_addr from_port s = (s, [])) /\
  (forall (r : ARISRobot.robot) (pkt : list byte),
     length pkt <> ARISRobot.sizeof_AgentMessage ->
     ARISRobot.receive_message (Some pkt) r = (false, r)) /\
  (forall (a : Aris.aris) (message : list byte) (from_addr : string),
     length message <> Aris.sizeof_AgentMessage ->
     Aris.handle_incoming_message message from_addr a = a).
Proof.
  split; [|split].
  - intros MessageT St get_size deserialize h message from_addr from_port s Hl.
    unfold Transport.handle_incoming_message.
    destruct (Nat.eqb_spec (length message) get_size); [contradiction|reflexivity].
  - intros r pkt Hl. simpl. rewrite ARISRobotFacts.received_length.
    destruct (Nat.eqb_spec (length pkt) ARISRobot.sizeof_AgentMessage); [contradiction|reflexivity].
  - intros a message from_addr Hl. unfold Aris.handle_incoming_message.
    destruct (Nat.eqb_spec (length message) Aris.sizeof_AgentMessage); [contradiction|reflexivity].
Qed.

(** The spec's scenario: a 10-byte payload on an engine bound to a
    96-byte Discovery type whose handler merges into a peer table. *)
Lemma missized_payload_discarded_witness :
  let table : gmap string Agent.Discovery :=
    <["fe80::1" := Agent.mk_discovery 5 5 "fe80::1" Agent.default_zero_ref false 75]> ∅ in
  let merge : @Transport.handler Agent.Discovery (gmap string Agent.Discovery) :=
    fun msg _ _ t => <[Agent.ipv6 msg := msg]> t in
  Transport.handle_incoming_message 96
    (fun _ => Agent.mk_discovery 0 0 "fe80::2" Agent.default_zero_ref false 0)
    (Some merge) (replicate 10 x00) "fe80::2" 7447 table = (table, []).
Proof.
  intros table merge.
  apply (proj1 missized_payload_discarded). simpl. lia.
Defined.

(** [Aris::handle_incoming_message] stores a sized, accepted datagram
    under its uuid field. *)
Lemma aris_handle_stores (a : Aris.aris) (message : list byte) (from_addr : string) :
  length message = Aris.sizeof_AgentMessage ->
  Aris.should_share_info_with a (Aris.capability_index message) = true ->
  Aris.known_robots_ (Aris.handle_incoming_message message from_addr a) !! Aris.uuid_of message
    = Some message.
Proof.
  intros Hl Hs. unfold Aris.handle_incoming_message.
  rewrite (proj2 (Nat.eqb_eq _ _) Hl).
  assert (Hd : Aris.deserialize message = message) by (unfold Aris.deserialize; apply take_ge; lia).
  rewrite Hd, Hs. cbn [Aris.set_known_robots Aris.known_robots_]. apply lookup_insert_eq.
Qed.

(** C3: a message accepted by the sharing policy becomes exactly the
    table entry under its declared key, whatever was stored there before
    (so its [join_time] is the sender's): Agent (gated revision), Aris,
    and ARISRobot. *)
Theorem accepted_message_overwrites_entry :
  (forall (g : Agent.agent) (msg : Agent.Discovery) (from_addr : string),
     Policy.should_share_info_with (Agent.capability g) (Agent.capability_index msg) = true ->
     Agent.known_agents_ (Agent.handle_discovery_message_gated msg from_addr g) !! Agent.ipv6 msg = Some msg /\
     (forall stored, Agent.known_agents_ (Agent.handle_discovery_message_gated msg from_addr g)
                       !! Agent.ipv6 msg = Some stored -> Agent.join_time stored = Agent.join_time msg)) /\
  (forall (a : Aris.aris) (message : list byte) (from_addr : string),
     length message = Aris.sizeof_AgentMessage ->
     Aris.should_share_info_with a (Aris.capability_index message) = true ->
     Aris.known_robots_ (Aris.handle_incoming_message message from_addr a) !! Aris.uuid_of message
       = Some message) /\
  (forall (r : ARISRobot.robot) (pkt : list byte),
     length pkt = ARISRobot.sizeof_AgentMessage -> ARISRobot.uuid_of pkt <> ARISRobot.uuid_ r ->
     ARISRobot.should_share_info_with r (ARISRobot.capability_index pkt) = true ->
     ARISRobot.known_robots_ (snd (ARISRobot.receive_message (Some pkt) r)) !! ARISRobot.uuid_of pkt
       = Some pkt).
Proof.
  split; [|split].
  - intros g msg from_addr Hs. unfold Agent.handle_discovery_message_gated. rewrite Hs.
    cbn [Agent.set_known_agents Agent.known_agents_]. rewrite lookup_insert_eq. split; [reflexivity|]. intros stored Hst. injection Hst as <-. reflexivity.
  - intros a message from_addr Hl Hs. unfold Aris.handle_incoming_message.
    rewrite (proj2 (Nat.eqb_eq _ _) Hl).
    assert (Hd : Aris.deserialize message = message) by (unfold Aris.deserialize; apply take_ge; lia).
    rewrite Hd, Hs. cbn [Aris.set_known_robots Aris.known_robots_]. apply lookup_insert_eq.
  - intros r pkt Hl Hu Hs. rewrite (ARISRobotFacts.receive_message_sized_foreign r pkt Hl Hu).
    cbv zeta. unfold ARISRobot.should_share_info_with in *.
    destruct (ARISRobot.chosen_protocol_ r =? ARISRobot.NONE);
      cbn [ARISRobot.set_chosen_protocol ARISRobot.capability_index_ snd]; rewrite Hs;
      cbn [ARISRobot.set_known_robots ARISRobot.known_robots_ ARISRobot.set_chosen_protocol];
      apply lookup_insert_eq.
Qed.

Lemma accepted_message_overwrites_entry_witness :
  let a := Aris.mk_aris "robot-A" 75 (<["robot-B" := Aris.mk_packet 1 "robot-B" 60]> ∅) in
  let message := Aris.mk_packet 2 "robot-B" 40 in
  Aris.known_robots_ (Aris.handle_incoming_message message "fe80::2" a) !! Aris.uuid_of message
    = Some message.
Proof.
  intros a message.
  apply (proj1 (proj2 accepted_message_overwrites_entry)).
  - vm_compute. reflexivity.
  - vm_compute. reflexivity.
Defined.

(** C5, as stated, fails for [Aris]: a sized, policy-accepted datagram
    from another source address that declares the robot's own uuid
    overwrites the robot's own entry. *)
Lemma aris_self_uuid_overwrites_own_entry :
  let own := Aris.mk_packet 1 "robot-A" 75 in
  let a := Aris.mk_aris "robot-A" 75 (<["robot-A" := own]> ∅) in
  let forged := Aris.mk_packet 2 "robot-A" 75 in
  Aris.known_robots_ (Aris.lan_receive "fe80::1" forged "fe80::2" a) !! "robot-A" = Some forged /\
  forged <> own.
Proof.
  split.
  - vm_compute. reflexivity.
  - intros He. vm_compute in He. discriminate.
Qed.

(** C5 (amended): [ARISRobot::receive_message] drops a datagram whose
    declared uuid is the robot's own before any mutation; the [Aris]
    handler checks no declared identity and is protected only by the LAN
    interface, which drops datagrams whose source address is its own, so
    a datagram with a foreign source address is merged under its declared
    uuid even when that uuid is the robot's own. *)
Theorem self_filter_by_uuid_and_source :
  (forall (r : ARISRobot.robot) (pkt : list byte),
     ARISRobot.uuid_of (ARISRobot.deserialize (take 1024 pkt)) = ARISRobot.uuid_ r ->
     ARISRobot.receive_message (Some pkt) r = (false, r)) /\
  (forall (address_ : string) (pkt : list byte) (a : Aris.aris),
     Aris.lan_receive address_ pkt address_ a = a) /\
  (forall (address_ from_addr : string) (pkt : list byte) (a : Aris.aris),
     from_addr <> address_ -> length pkt = Aris.sizeof_AgentMessage ->
     Aris.should_share_info_with a (Aris.capability_index pkt) = true ->
     Aris.known_robots_ (Aris.lan_receive address_ pkt from_addr a) !! Aris.uuid_of pkt = Some pkt).
Proof.
  split; [|split].
  - intros r pkt Hu. simpl. destruct (Nat.eqb _ _); [|reflexivity].
    rewrite Hu, String.eqb_refl. reflexivity.
  - intros address_ pkt a. unfold Aris.lan_receive.
    destruct (Nat.eqb _ 0); [reflexivity|]. rewrite String.eqb_refl. reflexivity.
  - intros address_ from_addr pkt a Hne Hl Hs. unfold Aris.lan_receive.
    assert (Ht : take 1024 pkt = pkt) by (apply take_ge; unfold Aris.sizeof_AgentMessage in Hl; lia).
    rewrite Ht. rewrite Hl. simpl.
    destruct (String.eqb_spec from_addr address_) as [He|_]; [contradiction|].
    apply aris_handle_stores; assumption.
Qed.

Lemma self_filter_by_uuid_and_source_witness :
  let r0 := ARISRobot.create "robot-A" 75 0 in
  let a := Aris.mk_aris "robot-A" 75 ∅ in
  let pkt := Aris.mk_packet 2 "robot-B" 75 in
  ARISRobot.receive_message (Some (ARISRobot.mk_packet "robot-A" 75 0)) r0 = (false, r0) /\
  Aris.lan_receive "fe80::1" pkt "fe80::1" a = a /\
  Aris.known_robots_ (Aris.lan_receive "fe80::1" pkt "fe80::2" a) !! Aris.uuid_of pkt = Some pkt.
Proof.
  intros r0 a pkt.
  destruct self_filter_by_uuid_and_source as (H1 & H2 & H3).
  split; [apply H1; vm_compute; reflexivity|].
  split; [apply H2|].
  apply H3.
  - intros He. vm_compute in He. discriminate.
  - vm_compute. reflexivity.
  - vm_compute. reflexivity.
Defined.

End MergeFacts.

Module AgentFacts.
Import Agent.

Lemma local_run_app (es1 es2 : list local_event) (g : agent) :
  local_run (es1 ++ es2) g = local_run es2 (local_run es1 g).
Proof. revert g. induction es1 as [|e es1 IH]; intros g; simpl; auto. Qed.

Lemma local_run_keeps (es : list local_event) (g : agent) :
  address (local_run es g) = address g /\
  capability (local_run es g) = capability g /\
  known_agents_ (local_run es g) = known_agents_ g.
Proof.
  revert g. induction es as [|e es IH]; intros g; simpl; [auto|].
  destruct (IH (local_step e g)) as (H1 & H2 & H3). rewrite H1, H2, H3.
  destruct e; simpl; auto.
Qed.

Lemma message_loop_tick_join_time (t : Z) (b : Broadcast) :
  join_time (broadcast_message_ (fst (message_loop_tick t b))) = join_time (broadcast_message_ b).
Proof.
  unfold message_loop_tick.
  destruct (continuous_ b && has_broadcast_message_ b); [|reflexivity].
  destruct (_ >=? _); reflexivity.
Qed.

(** C2: when the self entry of the peer table holds [join_time = T0],
    every call of [send_discovery], after any interleaving of earlier
    calls (with any timestamps) and broadcast ticks, stores a broadcast
    message with [join_time = T0]; these local events never touch the
    table, and once the stored message has [join_time = T0] it keeps it. *)
Theorem send_discovery_keeps_join_time (g : agent) (s : Discovery) :
  known_agents_ g !! address g = Some s ->
  (forall es now_time,
     join_time (broadcast_message_ (transport_ (local_run (es ++ [Refresh now_time]) g))) = join_time s) /\
  (forall es, known_agents_ (local_run es g) = known_agents_ g) /\
  (join_time (broadcast_message_ (transport_ g)) = join_time s ->
     forall es, join_time (broadcast_message_ (transport_ (local_run es g))) = join_time s).
Proof.
  intros Hs. split; [|split].
  - intros es now_time. rewrite local_run_app. simpl.
    destruct (local_run_keeps es g) as (H1 & _ & H3).
    unfold send_discovery. rewrite H1, H3, Hs. reflexivity.
  - intros es. apply local_run_keeps.
  - intros Hb es. revert g Hs Hb.
    induction es as [|e es IH]; intros g Hs Hb; cbn [local_run]; [exact Hb|].
    destruct e as [t|t]; apply IH.
    + exact Hs.
    + unfold local_step, send_discovery. rewrite Hs. reflexivity.
    + exact Hs.
    + cbn [local_step set_transport transport_]. rewrite message_loop_tick_join_time. exact Hb.
Qed.

Lemma send_discovery_keeps_join_time_witness :
  let g := create "fe80::1" 75 1760000000000 5 in
  join_time (broadcast_message_ (transport_
    (local_run ([Refresh 1760000001000; Tick 2000000005] ++ [Refresh 1760000002000]) g)))
    = 1760000000000.
Proof.
  intros g.
  apply (proj1 (send_discovery_keeps_join_time g
                  (mk_discovery 1760000000000 1760000000000 "fe80::1" default_zero_ref false 75)
                  eq_refl)).
Defined.

(** C9 fails: the message loop re-stamps the stored Discovery with the
    monotonic clock in nanoseconds since boot while [join_time] is the
    system clock in ms since 1970.  An agent created at system time
    1760000000000 ms whose first tick runs 600 s after boot broadcasts a
    message with [timestamp] 600000000000 < [join_time]. *)
Theorem broadcast_tick_timestamp_below_join_time :
  let g := create "fe80::1" 75 1760000000000 599000000000 in
  join_time (broadcast_message_ (transport_ g)) <= timestamp (broadcast_message_ (transport_ g)) /\
  snd (message_loop_tick 600000000000 (transport_ g))
    = [mk_discovery 600000000000 1760000000000 "fe80::1" default_zero_ref false 75] /\
  timestamp (broadcast_message_ (fst (message_loop_tick 600000000000 (transport_ g))))
    < join_time (broadcast_message_ (fst (message_loop_tick 600000000000 (transport_ g)))).
Proof. vm_compute. split; [discriminate|]. split; [reflexivity|reflexivity]. Qed.

End AgentFacts.

(* ------------------------------------------------------------------ *)
(** ** Byte images: encoders, [strncpy] and field writes *)

Module WireFacts.
Import ARISSend.

Lemma byte_to_of_Z (z : Z) : Int.byte_to_Z (Int.byte_of_Z z) = z mod 256.
Proof.
  unfold Int.byte_to_Z, Int.byte_of_Z.
  assert (Hb : 0 <= z mod 256 < 256) by (apply Z.mod_pos_bound; lia).
  destruct (Byte.of_N (Z.to_N (z mod 256))) as [b|] eqn:E.
  - apply Byte.to_of_N in E. rewrite E. apply Z2N.id. lia.
  - apply Byte.of_N_None_iff in E. apply N2Z.inj_lt in E.
    rewrite Z2N.id in E by lia. lia.
Qed.

Lemma length_le_bytes (n : nat) (z : Z) : length (Int.le_bytes n z) = n.
Proof. revert z. induction n as [|n IH]; intros z; simpl; [reflexivity|]. by rewrite IH. Qed.

Lemma le_unsigned_le_bytes (n : nat) (z : Z) :
  Int.le_unsigned (Int.le_bytes n z) = z mod 256 ^ Z.of_nat n.
Proof.
  revert z. induction n as [|n IH]; intros z; simpl.
  - symmetry. apply Z.mod_1_r.
  - rewrite byte_to_of_Z, IH.
    rewrite Nat2Z.inj_succ, Z.pow_succ_r by lia.
    assert (0 < 256 ^ Z.of_nat n) by (apply Z.pow_pos_nonneg; lia).
    rewrite (Z.mul_comm 256 (256 ^ Z.of_nat n)), (Z.mul_comm (256 ^ Z.of_nat n) 256).
    rewrite Z.rem_mul_r by lia. reflexivity.
Qed.

(** A 32-bit signed value survives its unsigned encoding. *)
Lemma wrap32_of_mod (z : Z) : Int.int32_range z -> Int.wrap32 (z mod 2 ^ 32) = z.
Proof.
  unfold Int.int32_range, Int.wrap32, Int.wrap_signed. intros Hz.
  rewrite Z.mod_mod by lia.
  destruct (Z.ltb_spec z 0).
  - assert (Hm : z mod 2 ^ 32 = z + 2 ^ 32)
      by (symmetry; apply (Z.mod_unique z (2 ^ 32) (-1)); lia).
    rewrite Hm.
    destruct (Z.geb_spec (z + 2 ^ 32) (2 ^ (32 - 1))); lia.
  - rewrite Z.mod_small by lia.
    destruct (Z.geb_spec z (2 ^ (32 - 1))); lia.
Qed.

Lemma length_strncpy (src : list byte) (n : nat) : length (strncpy src n) = n.
Proof.
  revert src. induction n as [|n IH]; intros [|b src]; simpl; try reflexivity.
  - by rewrite IH.
  - destruct (Byte.eqb b x00); simpl; by rewrite IH.
Qed.

Lemma strncpy_lookup_lt (src : list byte) (n j : nat) :
  Forall (fun b => b <> x00) src -> (j < length src)%nat -> (j < n)%nat ->
  strncpy src n !! j = src !! j.
Proof.
  revert src j. induction n as [|n IH]; intros [|b src] j Hs Hj Hn; simpl in *; try lia.
  apply Forall_cons in Hs as [Hb Hs].
  destruct (Byte.eqb b x00) eqn:E; [apply Byte.byte_dec_bl in E; contradiction|].
  destruct j as [|j]; [reflexivity|]. simpl. apply IH; [exact Hs|lia|lia].
Qed.

Lemma strncpy_lookup_pad (src : list byte) (n j : nat) :
  Forall (fun b => b <> x00) src -> (length src <= j < n)%nat ->
  strncpy src n !! j = Some x00.
Proof.
  revert src j. induction n as [|n IH]; intros src j Hs Hj; [lia|].
  destruct src as [|b src]; simpl in *.
  - destruct j as [|j]; [reflexivity|]. simpl. apply IH; [exact Hs|simpl; lia].
  - apply Forall_cons in Hs as [Hb Hs].
    destruct (Byte.eqb b x00) eqn:E; [apply Byte.byte_dec_bl in E; contradiction|].
    destruct j as [|j]; [lia|]. simpl. apply IH; [exact Hs|lia].
Qed.

(** [std::string(p)] on a NUL-free prefix followed by a NUL. *)
Lemma cstring_prefix (l bs : list byte) :
  Forall (fun b => b <> x00) bs ->
  (forall j, (j < length bs)%nat -> l !! j = bs !! j) ->
  l !! length bs = Some x00 ->
  Int.cstring l = bs.
Proof.
  revert l. induction bs as [|b bs IH]; intros l Hs Hl Hz.
  - destruct l as [|c l]; [discriminate|]. simpl in Hz. injection Hz as ->. reflexivity.
  - apply Forall_cons in Hs as [Hb Hs].
    destruct l as [|c l]; [specialize (Hl 0%nat); simpl in Hl; discriminate Hl; lia|].
    assert (Hc : c = b) by (specialize (Hl 0%nat); simpl in Hl; injection Hl; [auto|lia]).
    subst c. simpl.
    destruct (Byte.eqb b x00) eqn:E; [apply Byte.byte_dec_bl in E; contradiction|].
    f_equal. apply IH; [exact Hs| |exact Hz].
    intros j Hj. apply (Hl (S j)). simpl. lia.
Qed.

Lemma cstring_app_nul (bs rest : list byte) :
  Forall (fun b => b <> x00) bs -> Int.cstring (bs ++ x00 :: rest) = bs.
Proof.
  intros Hs. apply cstring_prefix; [exact Hs| |].
  - intros j Hj. apply lookup_app_l. exact Hj.
  - rewrite lookup_app_r by lia. rewrite Nat.sub_diag. reflexivity.
Qed.

Lemma length_write_at (off : nat) (bs buf : list byte) :
  (off + length bs <= length buf)%nat -> length (Int.write_at off bs buf) = length buf.
Proof.
  intros H. unfold Int.write_at. rewrite !length_app, length_take, length_drop. lia.
Qed.

Lemma lookup_write_at (off : nat) (bs buf : list byte) (i : nat) :
  (off + length bs <= length buf)%nat ->
  Int.write_at off bs buf !! i =
    if decide (off <= i < off + length bs)%nat then bs !! (i - off)%nat else buf !! i.
Proof.
  intros H. unfold Int.write_at.
  assert (Ht : length (take off buf) = off) by (rewrite length_take; lia).
  destruct (decide (off <= i < off + length bs)%nat) as [Hi|Hi].
  - rewrite lookup_app_r by lia. rewrite Ht. apply lookup_app_l. lia.
  - destruct (decide (i < off)%nat).
    + rewrite lookup_app_l by lia. apply lookup_take_lt. exact l.
    + rewrite lookup_app_r by lia. rewrite Ht. rewrite lookup_app_r by lia.
      rewrite lookup_drop. f_equal. lia.
Qed.

Definition fits (len : nat) (f : nat * list byte) : Prop := (f.1 + length f.2 <= len)%nat.
Definition covers (i : nat) (f : nat * list byte) : Prop := (f.1 <= i < f.1 + length f.2)%nat.

Lemma length_write_fields (fs : list (nat * list byte)) (buf : list byte) :
  Forall (fits (length buf)) fs -> length (write_fields fs buf) = length buf.
Proof.
  revert buf. induction fs as [|[o bs] fs IH]; intros buf Hf; [reflexivity|].
  apply Forall_cons in Hf as [Ho Hf]. simpl.
  assert (Hl : length (Int.write_at o bs buf) = length buf) by (apply length_write_at; exact Ho).
  rewrite IH; [exact Hl|]. rewrite Hl. exact Hf.
Qed.

Lemma write_fields_out (fs : list (nat * list byte)) (buf : list byte) (i : nat) :
  Forall (fits (length buf)) fs -> Forall (fun f => ~ covers i f) fs ->
  write_fields fs buf !! i = buf !! i.
Proof.
  revert buf. induction fs as [|[o bs] fs IH]; intros buf Hf Hc; [reflexivity|].
  apply Forall_cons in Hf as [Ho Hf]. apply Forall_cons in Hc as [Hi Hc]. simpl.
  assert (Hl : length (Int.write_at o bs buf) = length buf) by (apply length_write_at; exact Ho).
  rewrite IH; [|rewrite Hl; exact Hf|exact Hc].
  rewrite lookup_write_at by exact Ho. unfold covers in Hi. simpl in Hi.
  destruct (decide _); [contradiction|reflexivity].
Qed.

Lemma write_fields_at (fs : list (nat * list byte)) (k o : nat) (bs buf : list byte) (i : nat) :
  Forall (fits (length buf)) fs -> fs !! k = Some (o, bs) -> covers i (o, bs) ->
  Forall (fun f => ~ covers i f) (drop (S k) fs) ->
  write_fields fs buf !! i = bs !! (i - o)%nat.
Proof.
  revert k buf. induction fs as [|[o' bs'] fs IH]; intros k buf Hf Hk Hi Hc; [discriminate|].
  apply Forall_cons in Hf as [Ho Hf]. simpl.
  assert (Hl : length (Int.write_at o' bs' buf) = length buf) by (apply length_write_at; exact Ho).
  destruct k as [|k]; simpl in Hk, Hc.
  - injection Hk as <- <-.
    rewrite write_fields_out; [|rewrite Hl; exact Hf|exact Hc].
    rewrite lookup_write_at by exact Ho. unfold covers in Hi. simpl in Hi.
    destruct (decide _); [reflexivity|contradiction].
  - apply (IH k); [rewrite Hl; exact Hf|exact Hk|exact Hi|exact Hc].
Qed.

(** Reading [n] bytes at offset [o] of an image returns [bs] when every
    one of those bytes is the corresponding byte of [bs]. *)
Lemma slice_from_lookups (img bs : list byte) (o : nat) :
  (forall j, (j < length bs)%nat -> img !! (o + j)%nat = bs !! j) ->
  Int.slice o (length bs) img = bs.
Proof.
  intros H. apply list_eq. intros j. unfold Int.slice.
  destruct (decide (j < length bs)%nat) as [Hj|Hj].
  - rewrite lookup_take_lt by exact Hj. rewrite lookup_drop. apply H. exact Hj.
  - rewrite lookup_take_ge by lia. symmetry. apply lookup_ge_None_2. lia.
Qed.

End WireFacts.

(* ------------------------------------------------------------------ *)
(** ** The announcement image of [ARISRobot::send_agent_message] *)

Module ARISSendFacts.
Import WireFacts ARISSend ARISRobot.

(** Discharge [fits]/[covers] side conditions field by field. *)
Ltac fields_forall :=
  repeat match goal with
  | |- Forall _ [] => apply List.Forall_nil
  | |- Forall _ (_ :: _) =>
      apply List.Forall_cons;
      [unfold fits, covers; cbn [fst snd];
       rewrite ?length_strncpy, ?length_le_bytes; cbn [length]; lia|]
  end.

Lemma announcement_fits (id : identity) (ts : Z) (r : robot) :
  Forall (fits (length (replicate sizeof_AgentMessage x00))) (announcement_fields id ts r).
Proof.
  rewrite length_replicate. unfold sizeof_AgentMessage, announcement_fields. fields_forall.
Qed.

Lemma image_length (id : identity) (ts : Z) (r : robot) :
  length (send_agent_message id ts r) = sizeof_AgentMessage.
Proof.
  unfold send_agent_message. rewrite length_write_fields by apply announcement_fits.
  apply length_replicate.
Qed.

Lemma image_field (id : identity) (ts : Z) (r : robot) (k o j : nat) (bs : list byte) :
  announcement_fields id ts r !! k = Some (o, bs) -> (j < length bs)%nat ->
  Forall (fun f => ~ covers (o + j) f) (drop (S k) (announcement_fields id ts r)) ->
  send_agent_message id ts r !! (o + j)%nat = bs !! j.
Proof.
  intros Hk Hj Hc. unfold send_agent_message.
  rewrite (write_fields_at _ k o bs); [f_equal; lia|apply announcement_fits|exact Hk| |exact Hc].
  unfold covers. simpl. lia.
Qed.

Lemma image_uuid_bytes (id : identity) (ts : Z) (r : robot) (j : nat) :
  (j < 36)%nat ->
  send_agent_message id ts r !! (72 + j)%nat =
    strncpy (String.list_byte_of_string (uuid_ r)) 36 !! j.
Proof.
  intros Hj. apply (image_field id ts r 2); [reflexivity|rewrite length_strncpy; exact Hj|].
  unfold announcement_fields. cbn [drop skipn]. fields_forall.
Qed.

Lemma image_byte_108 (id : identity) (ts : Z) (r : robot) :
  send_agent_message id ts r !! 108%nat = Some x00.
Proof.
  unfold send_agent_message. rewrite write_fields_out.
  - apply lookup_replicate_2. unfold sizeof_AgentMessage. lia.
  - apply announcement_fits.
  - unfold announcement_fields. fields_forall.
Qed.

Lemma image_uuid (id : identity) (ts : Z) (r : robot) :
  Forall (fun b => b <> x00) (String.list_byte_of_string (uuid_ r)) ->
  (length (String.list_byte_of_string (uuid_ r)) <= 36)%nat ->
  uuid_of (send_agent_message id ts r) = uuid_ r.
Proof.
  intros Hs Hl. unfold uuid_of, Int.to_std_string, off_uuid.
  rewrite (cstring_prefix _ (String.list_byte_of_string (uuid_ r))).
  - apply String.string_of_list_byte_of_string.
  - exact Hs.
  - intros j Hj. rewrite lookup_drop, image_uuid_bytes by lia.
    apply strncpy_lookup_lt; [exact Hs|exact Hj|lia].
  - rewrite lookup_drop.
    destruct (decide (length (String.list_byte_of_string (uuid_ r)) < 36)%nat) as [Hlt|Hge].
    + rewrite image_uuid_bytes by exact Hlt. apply strncpy_lookup_pad; [exact Hs|lia].
    + replace (72 + length (String.list_byte_of_string (uuid_ r)))%nat with 108%nat by lia.
      apply image_byte_108.
Qed.

Lemma image_capability (id : identity) (ts : Z) (r : robot) :
  Int.int32_range (capability_index_ r) ->
  capability_index (send_agent_message id ts r) = capability_index_ r.
Proof.
  intros Hc. unfold capability_index, off_capability_index.
  assert (Hs : Int.slice 508 (length (Int.le_bytes 4 (capability_index_ r)))
                 (send_agent_message id ts r) = Int.le_bytes 4 (capability_index_ r)).
  { apply slice_from_lookups. intros j Hj.
    apply (image_field id ts r 7); [reflexivity|exact Hj|].
    rewrite length_le_bytes in Hj.
    unfold announcement_fields. cbn [drop skipn]. fields_forall. }
  rewrite length_le_bytes in Hs. rewrite Hs, le_unsigned_le_bytes.
  change (256 ^ Z.of_nat 4) with (2 ^ 32). apply wrap32_of_mod. exact Hc.
Qed.

Lemma image_protocol (id : identity) (ts : Z) (r : robot) :
  Int.int32_range (chosen_protocol_ r) ->
  protocol_of_wire (protocol (send_agent_message id ts r)) = chosen_protocol_ r.
Proof.
  intros Hc. unfold protocol, protocol_of_wire, off_protocol.
  assert (Hs : Int.slice 516 (length (Int.le_bytes 4 (chosen_protocol_ r)))
                 (send_agent_message id ts r) = Int.le_bytes 4 (chosen_protocol_ r)).
  { apply slice_from_lookups. intros j Hj.
    apply (image_field id ts r 9); [reflexivity|exact Hj|].
    rewrite length_le_bytes in Hj.
    unfold announcement_fields. cbn [drop skipn]. fields_forall. }
  rewrite length_le_bytes in Hs. rewrite Hs, le_unsigned_le_bytes.
  change (256 ^ Z.of_nat 4) with (2 ^ 32). apply wrap32_of_mod. exact Hc.
Qed.

End ARISSendFacts.

(* ------------------------------------------------------------------ *)
(** ** The uuid format of [ARISRobot::generate_uuid] *)

Module UuidFacts.
Import WireFacts ARISSend.

Lemma hex_digit_code (d : Z) :
  0 <= d < 16 -> Int.byte_to_Z (hex_digit d) = if d <? 10 then 48 + d else 87 + d.
Proof.
  intros Hd. unfold hex_digit. rewrite byte_to_of_Z.
  destruct (Z.ltb_spec d 10); apply Z.mod_small; lia.
Qed.

Lemma hex_digit_nonzero (d : Z) : 0 <= d < 16 -> hex_digit d <> x00.
Proof.
  intros Hd He. apply (f_equal Int.byte_to_Z) in He.
  rewrite hex_digit_code in He by exact Hd.
  change (Int.byte_to_Z x00) with 0 in He. destruct (Z.ltb_spec d 10); lia.
Qed.

Lemma hex_digit_inj (d e : Z) :
  0 <= d < 16 -> 0 <= e < 16 -> hex_digit d = hex_digit e -> d = e.
Proof.
  intros Hd He Heq. apply (f_equal Int.byte_to_Z) in Heq.
  rewrite !hex_digit_code in Heq by assumption.
  destruct (Z.ltb_spec d 10), (Z.ltb_spec e 10); lia.
Qed.

Lemma length_hex_fixed (n : nat) (x : Z) : length (hex_fixed n x) = n.
Proof.
  revert x. induction n as [|n IH]; intros x; simpl; [reflexivity|].
  rewrite length_app, IH. simpl. lia.
Qed.

Lemma hex_fixed_nonzero (n : nat) (x : Z) : Forall (fun b => b <> x00) (hex_fixed n x).
Proof.
  revert x. induction n as [|n IH]; intros x; simpl; [apply List.Forall_nil|].
  apply Forall_app. split; [apply IH|].
  apply List.Forall_cons; [|apply List.Forall_nil].
  apply hex_digit_nonzero. apply Z.mod_pos_bound. lia.
Qed.

(** Equal digit strings mean equal values modulo [16 ^ n]. *)
Lemma hex_fixed_inj (n : nat) (x y : Z) :
  hex_fixed n x = hex_fixed n y -> x mod 16 ^ Z.of_nat n = y mod 16 ^ Z.of_nat n.
Proof.
  revert x y. induction n as [|n IH]; intros x y H; simpl.
  - rewrite !Z.mod_1_r. reflexivity.
  - simpl in H. apply app_inj_tail in H as [H1 H2].
    apply hex_digit_inj in H2; [|apply Z.mod_pos_bound; lia|apply Z.mod_pos_bound; lia].
    apply IH in H1.
    assert (0 < 16 ^ Z.of_nat n) by (apply Z.pow_pos_nonneg; lia).
    rewrite Nat2Z.inj_succ, Z.pow_succ_r by lia.
    rewrite !Z.rem_mul_r by lia. rewrite H1, H2. reflexivity.
Qed.

Lemma hex_width_le (fuel k : nat) (x : Z) :
  0 <= x < 16 ^ Z.of_nat k -> (1 <= k)%nat -> (hex_width fuel x <= k)%nat.
Proof.
  revert k x. induction fuel as [|fuel IH]; intros k x Hx Hk; simpl; [exact Hk|].
  destruct (Z.ltb_spec x 16); [exact Hk|].
  destruct k as [|k]; [lia|].
  rewrite Nat2Z.inj_succ, Z.pow_succ_r in Hx by lia.
  destruct k as [|k]; [simpl in Hx; lia|].
  assert (Hd : 0 <= x / 16 < 16 ^ Z.of_nat (S k)).
  { split; [apply Z.div_pos; lia|]. apply Z.div_lt_upper_bound; lia. }
  specialize (IH (S k) (x / 16) Hd). lia.
Qed.

Lemma printf_hex_fixed (w : nat) (x : Z) :
  0 <= x < 16 ^ Z.of_nat w -> (1 <= w)%nat -> printf_hex w x = hex_fixed w x.
Proof.
  intros Hx Hw. unfold printf_hex. f_equal. apply Nat.max_l. apply hex_width_le; assumption.
Qed.

Lemma land_mask48 (m : Z) : Z.land m 0xFFFFFFFFFFFF = m mod 2 ^ 48.
Proof. change 0xFFFFFFFFFFFF with (Z.ones 48). apply Z.land_ones. lia. Qed.

(** The bytes of a generated uuid: the eight digits of [robot_id_]
    followed by 28 more characters, none of them NUL. *)
Lemma generate_uuid_bytes (robot_id_ d1 d2 d3 d4 micros : Z) :
  0 <= robot_id_ < 2 ^ 32 ->
  0 <= d1 <= 15 -> 0 <= d2 <= 15 -> 0 <= d3 <= 15 -> 0 <= d4 <= 15 ->
  exists rest,
    String.list_byte_of_string (generate_uuid robot_id_ d1 d2 d3 d4 micros) =
      hex_fixed 8 robot_id_ ++ rest /\
    length rest = 28%nat /\ Forall (fun b => b <> x00) rest.
Proof.
  intros Hid H1 H2 H3 H4. unfold generate_uuid.
  rewrite (printf_hex_fixed 8 robot_id_) by (simpl; lia).
  rewrite (printf_hex_fixed 4 (d1 * 4096 + d2 * 256 + d3 * 16 + d4)) by (simpl; lia).
  rewrite land_mask48.
  rewrite (printf_hex_fixed 12 (micros mod 2 ^ 48))
    by (lia || (change (16 ^ Z.of_nat 12) with (2 ^ 48); apply Z.mod_pos_bound; lia)).
  set (nib := hex_fixed 4 (d1 * 4096 + d2 * 256 + d3 * 16 + d4)).
  set (clk := hex_fixed 12 (micros mod 2 ^ 48)).
  assert (Hd : dash <> x00) by (vm_compute; intros H; discriminate H).
  exists ([dash] ++ printf_hex 4 4096 ++ [dash] ++ printf_hex 4 16384 ++ [dash] ++ nib ++ [dash] ++ clk).
  assert (Hl : length ([dash] ++ printf_hex 4 4096 ++ [dash] ++ printf_hex 4 16384 ++ [dash] ++
                       nib ++ [dash] ++ clk) = 28%nat).
  { unfold nib, clk. rewrite !length_app, !length_hex_fixed. reflexivity. }
  assert (Hn : Forall (fun b => b <> x00)
                 ([dash] ++ printf_hex 4 4096 ++ [dash] ++ printf_hex 4 16384 ++ [dash] ++
                  nib ++ [dash] ++ clk)).
  { assert (Hp1 : Forall (fun b => b <> x00) (printf_hex 4 4096))
      by (vm_compute; repeat constructor; intros H; discriminate H).
    assert (Hp2 : Forall (fun b => b <> x00) (printf_hex 4 16384))
      by (vm_compute; repeat constructor; intros H; discriminate H).
    assert (Hdl : Forall (fun b => b <> x00) [dash])
      by (apply List.Forall_cons; [exact Hd|apply List.Forall_nil]).
    apply Forall_app; split; [exact Hdl|].
    apply Forall_app; split; [exact Hp1|].
    apply Forall_app; split; [exact Hdl|].
    apply Forall_app; split; [exact Hp2|].
    apply Forall_app; split; [exact Hdl|].
    apply Forall_app; split; [apply hex_fixed_nonzero|].
    apply Forall_app; split; [exact Hdl|].
    apply hex_fixed_nonzero. }
  split; [|split; [exact Hl|exact Hn]].
  unfold Int.to_std_string.
  rewrite take_ge by (rewrite length_app, length_hex_fixed, Hl; lia).
  rewrite cstring_app_nul.
  - apply String.list_byte_of_string_of_list_byte.
  - apply Forall_app. split; [apply hex_fixed_nonzero|exact Hn].
Qed.

End UuidFacts.

(* ------------------------------------------------------------------ *)
(** ** Announcements between ARIS robots *)

Module AnnounceFacts.
Import WireFacts ARISSend ARISRobot ARISSendFacts UuidFacts.

Lemma update_tokens_uuid (now : Z) (r : robot) : uuid_ (update_tokens now r) = uuid_ r.
Proof. unfold update_tokens. destruct (_ >? _); reflexivity. Qed.

(** Silent polls only refill the bucket: identity, protocol, capability
    and table are those of the start. *)
Lemma listen_silent_prefix (polls rest : list (option (list byte) * Z)) (r : robot) :
  Forall (fun q => fst q = None) polls ->
  exists r', listen (polls ++ rest) r = listen rest r' /\
    uuid_ r' = uuid_ r /\ chosen_protocol_ r' = chosen_protocol_ r /\
    capability_index_ r' = capability_index_ r /\ known_robots_ r' = known_robots_ r.
Proof.
  revert r. induction polls as [|[dg now] polls IH]; intros r Hp.
  - exists r. auto.
  - apply Forall_cons in Hp as [Hd Hp]. simpl in Hd. subst dg.
    destruct (IH (update_tokens now r) Hp) as (r' & Hl & Hu & Hc & Hk & Hr).
    exists r'. simpl. rewrite Hl. rewrite Hu, Hc, Hk, Hr.
    destruct (ARISRobotFacts.update_tokens_keeps now r) as (E1 & E2 & E3).
    rewrite update_tokens_uuid. auto.
Qed.

Lemma generate_uuid_wire (robot_id_ d1 d2 d3 d4 micros : Z) :
  0 <= robot_id_ < 2 ^ 32 ->
  0 <= d1 <= 15 -> 0 <= d2 <= 15 -> 0 <= d3 <= 15 -> 0 <= d4 <= 15 ->
  length (String.list_byte_of_string (generate_uuid robot_id_ d1 d2 d3 d4 micros)) = 36%nat /\
  Forall (fun b => b <> x00) (String.list_byte_of_string (generate_uuid robot_id_ d1 d2 d3 d4 micros)).
Proof.
  intros Hid H1 H2 H3 H4.
  destruct (generate_uuid_bytes robot_id_ d1 d2 d3 d4 micros Hid H1 H2 H3 H4) as (rest & E & Hl & Hn).
  rewrite E, length_app, length_hex_fixed, Hl. split; [reflexivity|].
  apply Forall_app. split; [apply hex_fixed_nonzero|exact Hn].
Qed.

Lemma generate_uuid_ids (id1 id2 a1 a2 a3 a4 m b1 b2 b3 b4 n : Z) :
  0 <= id1 < 2 ^ 32 -> 0 <= id2 < 2 ^ 32 ->
  0 <= a1 <= 15 -> 0 <= a2 <= 15 -> 0 <= a3 <= 15 -> 0 <= a4 <= 15 ->
  0 <= b1 <= 15 -> 0 <= b2 <= 15 -> 0 <= b3 <= 15 -> 0 <= b4 <= 15 ->
  generate_uuid id1 a1 a2 a3 a4 m = generate_uuid id2 b1 b2 b3 b4 n -> id1 = id2.
Proof.
  intros Hi1 Hi2 Ha1 Ha2 Ha3 Ha4 Hb1 Hb2 Hb3 Hb4 He.
  destruct (generate_uuid_bytes id1 a1 a2 a3 a4 m) as (r1 & E1 & L1 & _); try assumption.
  destruct (generate_uuid_bytes id2 b1 b2 b3 b4 n) as (r2 & E2 & L2 & _); try assumption.
  apply (f_equal String.list_byte_of_string) in He. rewrite E1, E2 in He.
  apply app_inj_1 in He as [He _]; [|rewrite !length_hex_fixed; reflexivity].
  apply hex_fixed_inj in He. change (16 ^ Z.of_nat 8) with (2 ^ 32) in He.
  rewrite !Z.mod_small in He by lia. exact He.
Qed.

End AnnounceFacts.

Module AnnounceExtras.
Import WireFacts ARISSend ARISRobot ARISSendFacts UuidFacts AnnounceFacts.

(** [ARISRobot::generate_uuid]: for a [uint32_t] robot id and draws in
    [0, 15], the uuid has exactly 36 characters, none of them NUL, and
    starts with the eight lowercase hexadecimal digits of the robot id. *)
Theorem generate_uuid_format (robot_id_ d1 d2 d3 d4 micros : Z) :
  0 <= robot_id_ < 2 ^ 32 ->
  Forall (fun d => 0 <= d <= 15) [d1; d2; d3; d4] ->
  length (String.list_byte_of_string (generate_uuid robot_id_ d1 d2 d3 d4 micros)) = 36%nat /\
  Forall (fun b => b <> x00) (String.list_byte_of_string (generate_uuid robot_id_ d1 d2 d3 d4 micros)) /\
  take 8 (String.list_byte_of_string (generate_uuid robot_id_ d1 d2 d3 d4 micros)) =
    hex_fixed 8 robot_id_.
Proof.
  intros Hid Hd. repeat (apply Forall_cons in Hd as [? Hd]).
  destruct (generate_uuid_wire robot_id_ d1 d2 d3 d4 micros) as [Hl Hn]; try assumption.
  split; [exact Hl|split; [exact Hn|]].
  destruct (generate_uuid_bytes robot_id_ d1 d2 d3 d4 micros) as (rest & E & _); try assumption.
  rewrite E. rewrite take_app_length'; [reflexivity|]. symmetry; apply length_hex_fixed.
Qed.

Lemma generate_uuid_format_witness :
  0 <= 42 < 2 ^ 32 /\ Forall (fun d => 0 <= d <= 15) [1; 2; 3; 15] /\
  take 8 (String.list_byte_of_string (generate_uuid 42 1 2 3 15 1700000000000000)) =
    hex_fixed 8 42.
Proof.
  split; [lia|split; [repeat constructor; lia|]].
  apply (generate_uuid_format 42 1 2 3 15 1700000000000000); [lia|repeat constructor; lia].
Defined.

(** [ARISRobot::generate_uuid]: two robots with different [uint32_t]
    robot ids never get the same uuid, whatever the random draws and the
    clock readings. *)
Theorem generate_uuid_distinct_ids (id1 id2 a1 a2 a3 a4 m b1 b2 b3 b4 n : Z) :
  0 <= id1 < 2 ^ 32 -> 0 <= id2 < 2 ^ 32 -> id1 <> id2 ->
  Forall (fun d => 0 <= d <= 15) [a1; a2; a3; a4; b1; b2; b3; b4] ->
  generate_uuid id1 a1 a2 a3 a4 m <> generate_uuid id2 b1 b2 b3 b4 n.
Proof.
  intros Hi1 Hi2 Hne Hd He. repeat (apply Forall_cons in Hd as [? Hd]).
  apply Hne. apply (generate_uuid_ids id1 id2 a1 a2 a3 a4 m b1 b2 b3 b4 n); assumption.
Qed.

Lemma generate_uuid_distinct_ids_witness :
  generate_uuid 1 0 0 0 0 5 <> generate_uuid 2 0 0 0 0 5.
Proof.
  apply (generate_uuid_distinct_ids 1 2 0 0 0 0 5 0 0 0 0 5); [lia|lia|lia|repeat constructor; lia].
Defined.

(** [ARISRobot::send_agent_message] read back by the accessors of
    [receive_message]: the datagram is [sizeof(AgentMessage)] bytes and
    carries the sender's uuid (when it is NUL-free and at most 36
    characters), capability index and protocol (when they are [int32_t]
    values). *)
Theorem announcement_decodes (id : identity) (ts : Z) (r : robot) :
  Forall (fun b => b <> x00) (String.list_byte_of_string (uuid_ r)) ->
  (length (String.list_byte_of_string (uuid_ r)) <= 36)%nat ->
  Int.int32_range (capability_index_ r) -> Int.int32_range (chosen_protocol_ r) ->
  length (send_agent_message id ts r) = sizeof_AgentMessage /\
  uuid_of (send_agent_message id ts r) = uuid_ r /\
  capability_index (send_agent_message id ts r) = capability_index_ r /\
  protocol_of_wire (protocol (send_agent_message id ts r)) = chosen_protocol_ r.
Proof.
  intros Hs Hl Hc Hp. split; [apply image_length|].
  split; [apply image_uuid; assumption|].
  split; [apply image_capability; exact Hc|apply image_protocol; exact Hp].
Qed.

Lemma announcement_decodes_witness :
  let r := mk_robot "0000002a-1000-4000-1234-abcdef012345" ZENOH (-5) ∅ 1000 0 in
  let id := mk_identity "Tractor-Alpha" 42 "fe80::1" in
  uuid_of (send_agent_message id 1700000000000 r) = "0000002a-1000-4000-1234-abcdef012345" /\
  capability_index (send_agent_message id 1700000000000 r) = -5.
Proof.
  intros r id.
  destruct (announcement_decodes id 1700000000000 r) as (_ & Hu & Hc & _).
  - vm_compute. repeat constructor; intros H; discriminate H.
  - vm_compute. lia.
  - unfold r; simpl; unfold Int.int32_range, ZENOH; lia.
  - unfold r; simpl; unfold Int.int32_range, ZENOH; lia.
  - split; [exact Hu|exact Hc].
Defined.

(** A robot's own announcement looped back by the multicast group is
    dropped by [receive_message] of any robot with the same uuid: it
    returns [false] and changes nothing. *)
Theorem own_announcement_ignored (id : identity) (ts : Z) (r r' : robot) :
  Forall (fun b => b <> x00) (String.list_byte_of_string (uuid_ r)) ->
  (length (String.list_byte_of_string (uuid_ r)) <= 36)%nat ->
  uuid_ r' = uuid_ r ->
  receive_message (Some (send_agent_message id ts r)) r' = (false, r').
Proof.
  intros Hs Hl He. cbn [receive_message].
  rewrite ARISRobotFacts.received_length, image_length, Nat.eqb_refl.
  rewrite ARISRobotFacts.take_all_length, ARISRobotFacts.deserialize_sized by apply image_length.
  rewrite image_uuid by assumption. rewrite He, String.eqb_refl. reflexivity.
Qed.

Lemma own_announcement_ignored_witness :
  let r := create "0000002a-1000-4000-1234-abcdef012345" 75 0 in
  receive_message (Some (send_agent_message (mk_identity "Tractor-Alpha" 42 "fe80::1") 1700000000000 r)) r
    = (false, r).
Proof.
  intros r. apply own_announcement_ignored; [|vm_compute; lia|reflexivity].
  vm_compute. repeat constructor; intros H; discriminate H.
Defined.

(** A robot still at [Protocol::NONE] that receives the announcement of a
    robot with another uuid reports the network as heard, adopts the
    sender's protocol, and stores the datagram under the sender's uuid
    exactly when the sharing policy accepts the sender's capability. *)
Theorem peer_adopts_announcement (id : identity) (ts : Z) (a p : robot) :
  Forall (fun b => b <> x00) (String.list_byte_of_string (uuid_ a)) ->
  (length (String.list_byte_of_string (uuid_ a)) <= 36)%nat ->
  Int.int32_range (capability_index_ a) -> Int.int32_range (chosen_protocol_ a) ->
  chosen_protocol_ p = NONE -> uuid_ p <> uuid_ a ->
  receive_message (Some (send_agent_message id ts a)) p =
    (true,
     if Policy.should_share_info_with (capability_index_ p) (capability_index_ a)
     then set_known_robots (<[uuid_ a := send_agent_message id ts a]> (known_robots_ p))
            (set_chosen_protocol (chosen_protocol_ a) p)
     else set_chosen_protocol (chosen_protocol_ a) p).
Proof.
  intros Hs Hl Hc Hp Hn Hu.
  rewrite ARISRobotFacts.receive_message_sized_foreign;
    [|apply image_length|rewrite image_uuid by assumption; congruence].
  rewrite Hn, Z.eqb_refl. cbn zeta.
  rewrite image_protocol, image_capability, image_uuid by assumption.
  reflexivity.
Qed.

Lemma peer_adopts_announcement_witness :
  let a := mk_robot "0000002a-1000-4000-1234-abcdef012345" ZENOH 75 ∅ 1000 0 in
  let p := create "00000007-1000-4000-0000-000000000001" 80 0 in
  chosen_protocol_ (snd (receive_message
    (Some (send_agent_message (mk_identity "Tractor-Alpha" 42 "fe80::1") 1700000000000 a)) p)) = ZENOH.
Proof.
  intros a p.
  rewrite (peer_adopts_announcement (mk_identity "Tractor-Alpha" 42 "fe80::1") 1700000000000 a p).
  - reflexivity.
  - vm_compute. repeat constructor; intros H; discriminate H.
  - vm_compute. lia.
  - unfold a; simpl; unfold Int.int32_range, ZENOH; lia.
  - unfold a; simpl; unfold Int.int32_range, ZENOH; lia.
  - reflexivity.
  - vm_compute. discriminate.
Defined.

(** First phase of [ARISRobot::discovery_loop]: a joining robot (still at
    NONE) whose listen window is silent until the announcement of a robot
    with another [uint32_t] robot id (uuids from [generate_uuid]) hears
    the network and keeps the sender's protocol instead of electing one. *)
Theorem joining_robot_adopts_first_announcement
    (ia ip : identity) (a1 a2 a3 a4 ma b1 b2 b3 b4 mp ts t : Z) (a p : robot)
    (polls rest : list (option (list byte) * Z)) :
  0 <= robot_id_ ia < 2 ^ 32 -> 0 <= robot_id_ ip < 2 ^ 32 -> robot_id_ ia <> robot_id_ ip ->
  Forall (fun d => 0 <= d <= 15) [a1; a2; a3; a4; b1; b2; b3; b4] ->
  uuid_ a = generate_uuid (robot_id_ ia) a1 a2 a3 a4 ma ->
  uuid_ p = generate_uuid (robot_id_ ip) b1 b2 b3 b4 mp ->
  Int.int32_range (capability_index_ a) -> Int.int32_range (chosen_protocol_ a) ->
  chosen_protocol_ p = NONE ->
  Forall (fun q => fst q = None) polls ->
  fst (listen_then_elect (polls ++ (Some (send_agent_message ia ts a), t) :: rest) p) = true /\
  chosen_protocol_ (snd (listen_then_elect (polls ++ (Some (send_agent_message ia ts a), t) :: rest) p))
    = chosen_protocol_ a.
Proof.
  intros Hia Hip Hne Hd Hua Hup Hc Hp Hn Hpolls.
  pose proof Hd as Hd'. repeat (apply Forall_cons in Hd' as [? Hd']).
  destruct (generate_uuid_wire (robot_id_ ia) a1 a2 a3 a4 ma) as [Hl Hs]; try assumption.
  rewrite <- Hua in Hl, Hs.
  assert (Hu : uuid_ p <> uuid_ a).
  { rewrite Hua, Hup. intros He. apply Hne. symmetry.
    eapply generate_uuid_ids; [| |..|exact He]; eassumption. }
  destruct (listen_silent_prefix polls ((Some (send_agent_message ia ts a), t) :: rest) p Hpolls)
    as (p' & Hlis & Hu' & Hc' & _ & _).
  set (img := send_agent_message ia ts a) in *.
  assert (Hr : receive_message (Some img) p' =
                 (true, let r1 := set_chosen_protocol (chosen_protocol_ a) p' in
                        if should_share_info_with r1 (capability_index_ a)
                        then set_known_robots (<[uuid_ a := img]> (known_robots_ r1)) r1 else r1)).
  { rewrite ARISRobotFacts.receive_message_sized_foreign;
      [|apply image_length|unfold img; rewrite image_uuid by (lia || assumption); congruence].
    rewrite Hc', Hn, Z.eqb_refl. unfold img.
    rewrite image_protocol, image_capability, image_uuid by (lia || assumption). reflexivity. }
  unfold listen_then_elect. rewrite Hlis. cbn [listen]. rewrite Hr. cbn zeta.
  destruct (should_share_info_with (set_chosen_protocol (chosen_protocol_ a) p') (capability_index_ a));
    split; reflexivity.
Qed.

Lemma joining_robot_adopts_first_announcement_witness :
  let ia := mk_identity "Tractor-Alpha" 42 "fe80::1" in
  let ip := mk_identity "Tractor-Beta" 7 "fe80::2" in
  let a := mk_robot (generate_uuid 42 1 2 3 4 1700000000000000) ZENOH 75 ∅ 1000 0 in
  let p := create (generate_uuid 7 5 6 7 8 1700000000500000) 55 0 in
  chosen_protocol_ (snd (listen_then_elect
    ([(None, 100); (None, 200)] ++ (Some (send_agent_message ia 1700000000000 a), 300) :: []) p))
    = ZENOH.
Proof.
  intros ia ip a p.
  refine (proj2 (joining_robot_adopts_first_announcement ia ip 1 2 3 4 1700000000000000 5 6 7 8
           1700000000500000 1700000000000 300 a p [(None, 100); (None, 200)] []
           _ _ _ _ _ _ _ _ _ _)).
  - unfold ia; simpl; lia.
  - unfold ip; simpl; lia.
  - unfold ia, ip; simpl; lia.
  - repeat (apply List.Forall_cons; [lia|]). apply List.Forall_nil.
  - reflexivity.
  - reflexivity.
  - unfold a; simpl; unfold Int.int32_range; lia.
  - unfold a; simpl; unfold Int.int32_range, ZENOH; lia.
  - reflexivity.
  - repeat constructor.
Defined.

End AnnounceExtras.

(* ------------------------------------------------------------------ *)
(** ** Sharing policy, token refill *)

Module PolicyExtras.
Import Policy.

(** [should_share_info_with] does not depend on which side is local:
    two robots always agree on whether to share. *)
Theorem should_share_info_with_symmetric (a b : Z) :
  should_share_info_with a b = should_share_info_with b a.
Proof. unfold should_share_info_with. split_cmp; simpl; try reflexivity; lia. Qed.

(* The policy as one threshold test on the larger and the smaller capability. *)
Lemma should_share_info_with_iff (a b : Z) :
  should_share_info_with a b = true <-> 90 <= Z.max a b \/ 25 <= Z.min a b.
Proof.
  unfold should_share_info_with. split_cmp; simpl; split; intros; try reflexivity; try lia.
  all: try discriminate.
  all: exfalso; lia.
Qed.

(** [should_share_info_with] is monotone: raising either capability
    never withdraws sharing. *)
Theorem should_share_info_with_monotone (a a' b b' : Z) :
  a <= a' -> b <= b' -> should_share_info_with a b = true -> should_share_info_with a' b' = true.
Proof.
  intros Ha Hb Hs. apply should_share_info_with_iff in Hs. apply should_share_info_with_iff. lia.
Qed.

Lemma should_share_info_with_monotone_witness :
  should_share_info_with 30 40 = true /\ should_share_info_with 55 60 = true.
Proof.
  split; [reflexivity|].
  apply (should_share_info_with_monotone 30 55 40 60); [lia|lia|reflexivity].
Defined.

End PolicyExtras.

Module TokenExtras.
Import ARISRobot.

Lemma wrap64_small (z : Z) : 0 <= z < 2 ^ 63 -> Int.wrap64 z = z.
Proof.
  intros Hz. unfold Int.wrap64, Int.wrap_signed.
  rewrite Z.mod_small by (split; [lia|]; apply (Z.lt_trans _ (2 ^ 63)); [lia|reflexivity]).
  destruct (Z.geb_spec z (2 ^ (64 - 1))); [|reflexivity].
  change (64 - 1) with 63 in *. lia.
Qed.

(** [ARISRobot::update_tokens] refills one token per elapsed
    millisecond (10 Mbps times the ms count, divided by 10), capped at
    1000, and restarts the interval at [now]; an elapsed time of at most
    100 ms changes nothing.  Exact for a bucket in [0, 1000] and elapsed
    times short of the [int] overflow. *)
Theorem update_tokens_refill (now : Z) (r : robot) :
  0 <= tokens_ r <= 1000 ->
  now - last_token_update_ r <= 2 ^ 31 - 1001 ->
  (now - last_token_update_ r <= 100 -> update_tokens now r = r) /\
  (100 < now - last_token_update_ r ->
     update_tokens now r =
       set_tokens_at (Z.min (tokens_ r + (now - last_token_update_ r)) 1000) now r).
Proof.
  intros Ht He. unfold update_tokens. split.
  - intros Hs. destruct (Z.gtb_spec (now - last_token_update_ r) 100); [lia|reflexivity].
  - intros Hs. destruct (Z.gtb_spec (now - last_token_update_ r) 100); [|lia].
    rewrite wrap64_small by lia.
    rewrite Z.mul_comm, Z.quot_mul by lia.
    rewrite (ARISRobotFacts.wrap32_small (now - last_token_update_ r)) by lia.
    rewrite ARISRobotFacts.wrap32_small by lia.
    reflexivity.
Qed.

Lemma update_tokens_refill_witness :
  tokens_ (update_tokens 350 (set_tokens 700 (create "robot-A" 75 0))) = 1000 /\
  tokens_ (update_tokens 250 (set_tokens 700 (create "robot-A" 75 0))) = 950.
Proof.
  split.
  - rewrite (proj2 (update_tokens_refill 350 (set_tokens 700 (create "robot-A" 75 0))
                      ltac:(simpl; lia) ltac:(simpl; lia)) ltac:(simpl; lia)).
    reflexivity.
  - rewrite (proj2 (update_tokens_refill 250 (set_tokens 700 (create "robot-A" 75 0))
                      ltac:(simpl; lia) ltac:(simpl; lia)) ltac:(simpl; lia)).
    reflexivity.
Defined.

End TokenExtras.

(* ------------------------------------------------------------------ *)
(** ** The continuous broadcast over many loop iterations *)

Module BroadcastExtras.
Import Agent Broadcaster.

(** [Transport::message_loop] (part_001): successive sends are at least
    [broadcast_interval_] apart on the steady clock, and the first one at
    least that long after the loop's [last_broadcast]. *)
Theorem broadcast_sends_spaced (ticks : list Z) (b : Broadcast) :
  spaced (broadcast_interval_ms b * 1000000) (last_broadcast b)
    (map timestamp (snd (broadcast_run ticks b))) = true.
Proof.
  revert b. induction ticks as [|t ticks IH]; intros b; [reflexivity|].
  cbn [broadcast_run]. unfold message_loop_tick.
  destruct (continuous_ b && has_broadcast_message_ b).
  - destruct (t - last_broadcast b >=? broadcast_interval_ms b * 1000000) eqn:Eg.
    + specialize (IH (mk_broadcast (continuous_ b) (broadcast_interval_ms b)
                        (set_timestamp t (broadcast_message_ b)) true t)).
      destruct (broadcast_run ticks _) as [b2 s2]. cbn in IH |- *. rewrite Eg. exact IH.
    + specialize (IH (mk_broadcast (continuous_ b) (broadcast_interval_ms b)
                        (set_timestamp t (broadcast_message_ b)) true (last_broadcast b))).
      destruct (broadcast_run ticks _) as [b2 s2]. exact IH.
  - specialize (IH b). destruct (broadcast_run ticks b) as [b2 s2]. exact IH.
Qed.



End BroadcastExtras.

(* ------------------------------------------------------------------ *)
(** ** The peer table of an ARISRobot *)

Module TableExtras.
Import ARISRobot.

Lemma receive_message_table (dg : option (list byte)) (r : robot) (k : string) :
  known_robots_ (snd (receive_message dg r)) !! k = known_robots_ r !! k \/
  (exists pkt, dg = Some pkt /\ length pkt = sizeof_AgentMessage /\
     uuid_of pkt = k /\ uuid_of pkt <> uuid_ r /\
     known_robots_ (snd (receive_message dg r)) !! k = Some pkt).
Proof.
  destruct dg as [pkt|]; [|left; reflexivity].
  destruct (Nat.eqb_spec (length pkt) sizeof_AgentMessage) as [Hl|Hl].
  - destruct (String.eqb_spec (uuid_of pkt) (uuid_ r)) as [Hu|Hu].
    + left. cbn [receive_message]. rewrite ARISRobotFacts.received_length, Hl, Nat.eqb_refl.
      rewrite ARISRobotFacts.take_all_length, ARISRobotFacts.deserialize_sized by exact Hl.
      rewrite Hu, String.eqb_refl. reflexivity.
    + rewrite ARISRobotFacts.receive_message_sized_foreign by assumption. cbn zeta.
      destruct (chosen_protocol_ r =? NONE);
        destruct (should_share_info_with _ _); cbn [snd known_robots_ set_known_robots set_chosen_protocol];
        try (left; reflexivity).
      all: destruct (String.eqb_spec (uuid_of pkt) k) as [<-|Hk];
        [right; exists pkt; split; [reflexivity|split; [exact Hl|split; [reflexivity|split; [exact Hu|]]]];
         apply lookup_insert_eq
        |left; apply lookup_insert_ne; exact Hk].
  - left. cbn [receive_message]. rewrite ARISRobotFacts.received_length.
    destruct (Nat.eqb_spec (length pkt) sizeof_AgentMessage); [contradiction|reflexivity].
Qed.

Lemma receive_message_uuid (dg : option (list byte)) (r : robot) :
  uuid_ (snd (receive_message dg r)) = uuid_ r.
Proof.
  destruct dg as [pkt|]; [|reflexivity]. cbn [receive_message].
  destruct (Nat.eqb _ _); [|reflexivity].
  destruct (String.eqb _ _); [reflexivity|]. cbn zeta.
  destruct (chosen_protocol_ r =? NONE); destruct (should_share_info_with _ _); reflexivity.
Qed.

Lemma listen_table (polls : list (option (list byte) * Z)) (r : robot) :
  uuid_ (snd (listen polls r)) = uuid_ r /\
  (forall k m, known_robots_ r !! k = Some m -> is_Some (known_robots_ (snd (listen polls r)) !! k)) /\
  (known_robots_ r !! uuid_ r = None -> known_robots_ (snd (listen polls r)) !! uuid_ r = None).
Proof.
  revert r. induction polls as [|[dg now] polls IH]; intros r.
  - split; [reflexivity|split; [intros k m H; exists m; exact H|auto]].
  - cbn [listen].
    pose proof (receive_message_uuid dg r) as Hu.
    pose proof (receive_message_table dg r) as Ht.
    destruct (receive_message dg r) as [got r'] eqn:E. cbn [snd] in Hu, Ht.
    assert (H1 : forall k m, known_robots_ r !! k = Some m -> is_Some (known_robots_ r' !! k)).
    { intros k m Hk. destruct (Ht k) as [Hk'|(pkt & _ & _ & _ & _ & Hk')].
      - exists m. etransitivity; [exact Hk'|exact Hk].
      - exists pkt. exact Hk'. }
    assert (H2 : known_robots_ r !! uuid_ r = None -> known_robots_ r' !! uuid_ r = None).
    { intros Hn. destruct (Ht (uuid_ r)) as [Hk'|(pkt & _ & _ & Hk & Hne & _)].
      - etransitivity; [exact Hk'|exact Hn].
      - contradiction. }
    destruct got.
    + split; [exact Hu|split; [exact H1|exact H2]].
    + destruct (IH (update_tokens now r')) as (Iu & Ik & In).
      destruct (ARISRobotFacts.update_tokens_keeps now r') as (_ & _ & Hkeep).
      pose proof (AnnounceFacts.update_tokens_uuid now r') as Huu.
      split; [rewrite Iu, Huu; exact Hu|split].
      * intros k m Hk. destruct (H1 k m Hk) as [m' Hm'].
        apply (Ik k m'). rewrite Hkeep. exact Hm'.
      * intros Hn. rewrite <- Hu, <- Huu. apply In. rewrite Huu, Hkeep, Hu. apply H2. exact Hn.
Qed.

(** [ARISRobot::receive_message] touches at most one entry of
    [known_robots_]: the one keyed by the uuid field of a correctly-sized
    datagram carrying a foreign uuid, which then holds that datagram; every
    other key keeps its entry, and the robot's own uuid is never written. *)
Theorem receive_message_changes_one_entry (dg : option (list byte)) (r : robot) (k : string) :
  known_robots_ (snd (receive_message dg r)) !! k = known_robots_ r !! k \/
  (exists pkt, dg = Some pkt /\ length pkt = sizeof_AgentMessage /\
     uuid_of pkt = k /\ uuid_of pkt <> uuid_ r /\
     known_robots_ (snd (receive_message dg r)) !! k = Some pkt).
Proof. apply receive_message_table. Qed.

(** The listen phase of [ARISRobot::discovery_loop] followed by the
    election: no known robot is ever forgotten, the robot's uuid does not
    change, and a robot with no entry under its own uuid never gets one. *)
Theorem listen_then_elect_table (polls : list (option (list byte) * Z)) (r : robot) :
  uuid_ (snd (listen_then_elect polls r)) = uuid_ r /\
  (forall k m, known_robots_ r !! k = Some m ->
     is_Some (known_robots_ (snd (listen_then_elect polls r)) !! k)) /\
  (known_robots_ r !! uuid_ r = None ->
     known_robots_ (snd (listen_then_elect polls r)) !! uuid_ r = None).
Proof.
  unfold listen_then_elect. destruct (listen_table polls r) as (Hu & Hk & Hn).
  destruct (listen polls r) as [heard r'] eqn:E. cbn [snd] in Hu, Hk, Hn |- *.
  destruct heard; exact (conj Hu (conj Hk Hn)).
Qed.

Lemma listen_then_elect_table_witness :
  let r0 := set_known_robots (<["robot-C" := mk_packet "robot-C" 80 ZENOH]> ∅) (create "robot-A" 75 0) in
  is_Some (known_robots_ (snd (listen_then_elect
             [(None, 100); (Some (mk_packet "robot-B" 75 ZENOH), 200)] r0)) !! "robot-C") /\
  known_robots_ (snd (listen_then_elect
             [(None, 100); (Some (mk_packet "robot-A" 75 ZENOH), 200)] r0)) !! "robot-A" = None.
Proof.
  intros r0. split.
  - apply (proj1 (proj2 (listen_then_elect_table
             [(None, 100); (Some (mk_packet "robot-B" 75 ZENOH), 200)] r0)) "robot-C" (mk_packet "robot-C" 80 ZENOH)).
    reflexivity.
  - apply (proj2 (proj2 (listen_then_elect_table
             [(None, 100); (Some (mk_packet "robot-A" 75 ZENOH), 200)] r0))).
    reflexivity.
Defined.

End TableExtras.

(* ------------------------------------------------------------------ *)
(** ** Announcements between Aris robots over a LanInterface *)

Module ArisSendFacts.
Import WireFacts ARISSend ArisSend.

Lemma aris_announcement_fits (id : identity) (ts : Z) (a : Aris.aris) :
  Forall (fits (length (replicate Aris.sizeof_AgentMessage x00))) (announcement_fields id ts a).
Proof.
  rewrite length_replicate. unfold Aris.sizeof_AgentMessage, announcement_fields.
  ARISSendFacts.fields_forall.
Qed.

Lemma aris_image_length (id : identity) (ts : Z) (a : Aris.aris) :
  length (send_agent_message id ts a) = Aris.sizeof_AgentMessage.
Proof.
  unfold send_agent_message. rewrite length_write_fields by apply aris_announcement_fits.
  apply length_replicate.
Qed.

Lemma aris_image_field (id : identity) (ts : Z) (a : Aris.aris) (k o j : nat) (bs : list byte) :
  announcement_fields id ts a !! k = Some (o, bs) -> (j < length bs)%nat ->
  Forall (fun f => ~ covers (o + j) f) (drop (S k) (announcement_fields id ts a)) ->
  send_agent_message id ts a !! (o + j)%nat = bs !! j.
Proof.
  intros Hk Hj Hc. unfold send_agent_message.
  rewrite (write_fields_at _ k o bs); [f_equal; lia|apply aris_announcement_fits|exact Hk| |exact Hc].
  unfold covers. simpl. lia.
Qed.

Lemma aris_image_uuid (id : identity) (ts : Z) (a : Aris.aris) :
  Forall (fun b => b <> x00) (String.list_byte_of_string (Aris.uuid_ a)) ->
  (length (String.list_byte_of_string (Aris.uuid_ a)) <= 36)%nat ->
  Aris.uuid_of (send_agent_message id ts a) = Aris.uuid_ a.
Proof.
  intros Hs Hl. unfold Aris.uuid_of, Int.to_std_string, Aris.off_uuid.
  assert (Hu : forall j, (j < 36)%nat ->
            send_agent_message id ts a !! (72 + j)%nat =
              strncpy (String.list_byte_of_string (Aris.uuid_ a)) 36 !! j).
  { intros j Hj. apply (aris_image_field id ts a 2); [reflexivity|rewrite length_strncpy; exact Hj|].
    unfold announcement_fields. cbn [drop skipn]. ARISSendFacts.fields_forall. }
  rewrite (cstring_prefix _ (String.list_byte_of_string (Aris.uuid_ a))).
  - apply String.string_of_list_byte_of_string.
  - exact Hs.
  - intros j Hj. rewrite lookup_drop, Hu by lia.
    apply strncpy_lookup_lt; [exact Hs|exact Hj|lia].
  - rewrite lookup_drop.
    destruct (decide (length (String.list_byte_of_string (Aris.uuid_ a)) < 36)%nat) as [Hlt|Hge].
    + rewrite Hu by exact Hlt. apply strncpy_lookup_pad; [exact Hs|lia].
    + replace (72 + length (String.list_byte_of_string (Aris.uuid_ a)))%nat with 108%nat by lia.
      unfold send_agent_message. rewrite write_fields_out.
      * apply lookup_replicate_2. unfold Aris.sizeof_AgentMessage. lia.
      * apply aris_announcement_fits.
      * unfold announcement_fields. ARISSendFacts.fields_forall.
Qed.

Lemma aris_image_capability (id : identity) (ts : Z) (a : Aris.aris) :
  Int.int32_range (Aris.capability_index_ a) ->
  Aris.capability_index (send_agent_message id ts a) = Aris.capability_index_ a.
Proof.
  intros Hc. unfold Aris.capability_index, Aris.off_capability_index.
  assert (Hs : Int.slice 508 (length (Int.le_bytes 4 (Aris.capability_index_ a)))
                 (send_agent_message id ts a) = Int.le_bytes 4 (Aris.capability_index_ a)).
  { apply slice_from_lookups. intros j Hj.
    apply (aris_image_field id ts a 7); [reflexivity|exact Hj|].
    rewrite length_le_bytes in Hj.
    unfold announcement_fields. cbn [drop skipn]. ARISSendFacts.fields_forall. }
  rewrite length_le_bytes in Hs. rewrite Hs, le_unsigned_le_bytes.
  change (256 ^ Z.of_nat 4) with (2 ^ 32). apply wrap32_of_mod. exact Hc.
Qed.

End ArisSendFacts.

Module ArisExtras.
Import WireFacts ARISSend ArisSend ArisSendFacts.

(** [Aris::send_agent_message] delivered by [LanInterface::receive_loop]
    of another robot, from a source address other than the receiver's
    own, lands in the receiver's [known_robots_] under the sender's uuid
    (NUL-free, at most 36 characters) exactly when the receiver's policy
    accepts the sender's [int32_t] capability; no other entry changes. *)
Theorem aris_announcement_delivered (id : identity) (ts : Z) (a b : Aris.aris)
    (address_ from_addr : string) :
  Forall (fun c => c <> x00) (String.list_byte_of_string (Aris.uuid_ a)) ->
  (length (String.list_byte_of_string (Aris.uuid_ a)) <= 36)%nat ->
  Int.int32_range (Aris.capability_index_ a) ->
  from_addr <> address_ ->
  Aris.lan_receive address_ (send_agent_message id ts a) from_addr b =
    if Policy.should_share_info_with (Aris.capability_index_ b) (Aris.capability_index_ a)
    then Aris.set_known_robots (<[Aris.uuid_ a := send_agent_message id ts a]> (Aris.known_robots_ b)) b
    else b.
Proof.
  intros Hs Hl Hc Hne. unfold Aris.lan_receive.
  rewrite take_ge by (rewrite aris_image_length; unfold Aris.sizeof_AgentMessage; lia).
  rewrite aris_image_length. cbn [Nat.eqb Aris.sizeof_AgentMessage].
  destruct (String.eqb_spec from_addr address_) as [He|_]; [contradiction|].
  unfold Aris.handle_incoming_message. rewrite aris_image_length, Nat.eqb_refl.
  unfold Aris.deserialize. rewrite take_ge by (rewrite aris_image_length; lia).
  unfold Aris.should_share_info_with.
  rewrite aris_image_capability, aris_image_uuid by assumption. reflexivity.
Qed.

Lemma aris_announcement_delivered_witness :
  let a := Aris.mk_aris "0000002a-1000-4000-1234-abcdef012345" 75 ∅ in
  let b := Aris.mk_aris "00000007-1000-4000-0000-000000000001" 60 ∅ in
  let img := send_agent_message (mk_identity "Tractor-Alpha" 42 "fe80::1") 1700000000000 a in
  Aris.known_robots_ (Aris.lan_receive "fe80::2" img "fe80::1" b)
    !! "0000002a-1000-4000-1234-abcdef012345" = Some img.
Proof.
  intros a b img. unfold img.
  rewrite (aris_announcement_delivered (mk_identity "Tractor-Alpha" 42 "fe80::1") 1700000000000 a b
             "fe80::2" "fe80::1").
  - cbn [Aris.capability_index_ a b]. cbn -[send_agent_message].
    apply lookup_insert_eq.
  - vm_compute. repeat constructor; intros H; discriminate H.
  - vm_compute. lia.
  - unfold a; simpl; unfold Int.int32_range; lia.
  - vm_compute. discriminate.
Defined.

End ArisExtras.
